(** * E-commerce sales pipeline: [data_loader.py] and [business_metrics.py]

    A shallow embedding of the loader ([EcommerceDataLoader]) and of the
    aggregation functions of [business_metrics.py], with the properties
    of the natural-language specification stated and proved about them.

    Conventions of the embedding.
    - A pandas column cell is an [option]: [None] is the missing value
      (NaN, NaT).
    - A table is the list of its rows, in row order; a [DataFrame] object
      held by the loader also carries its index labels.
    - Prices are exact rationals ([Q]); results of float divisions live in
      [num], the rationals extended with NaN and the two infinities.
      Binary rounding error of float64 arithmetic is not represented.
    - A timestamp is the number of nanoseconds since the Unix epoch, as
      in pandas' [datetime64[ns]]; its int64 range is not represented. *)

From Stdlib Require Import ZArith QArith Qround Lia Lqa Ascii.
From stdpp Require Import base tactics option list sorting gmap strings pretty.

Local Open Scope Z_scope.

(* ================================================================== *)
(** * Numbers *)
(* ================================================================== *)

(** Values of a float64 computation: a rational, NaN, or an infinity. *)
Inductive num : Type :=
  | NaN
  | PInf
  | NInf
  | Fin (q : Q).

(** Sign of a number as a [comparison] with zero ([Eq] for zero). *)
Definition nsign (x : num) : comparison :=
  match x with
  | NaN => Eq
  | PInf => Gt
  | NInf => Lt
  | Fin q => (q ?= 0)%Q
  end.

Definition mul_sign (a b : comparison) : comparison :=
  match a, b with
  | Eq, _ | _, Eq => Eq
  | Gt, Gt | Lt, Lt => Gt
  | _, _ => Lt
  end.

(** The infinity of a given sign; a zero sign gives NaN (0/0, inf*0). *)
Definition inf_of_sign (c : comparison) : num :=
  match c with
  | Gt => PInf
  | Lt => NInf
  | Eq => NaN
  end.

Definition nneg (x : num) : num :=
  match x with
  | NaN => NaN
  | PInf => NInf
  | NInf => PInf
  | Fin q => Fin (- q)
  end.

Definition nadd (x y : num) : num :=
  match x, y with
  | NaN, _ | _, NaN => NaN
  | PInf, NInf | NInf, PInf => NaN
  | PInf, _ | _, PInf => PInf
  | NInf, _ | _, NInf => NInf
  | Fin a, Fin b => Fin (a + b)
  end.

Definition nsub (x y : num) : num := nadd x (nneg y).

Definition nmul (x y : num) : num :=
  match x, y with
  | NaN, _ | _, NaN => NaN
  | Fin a, Fin b => Fin (a * b)
  | _, _ => inf_of_sign (mul_sign (nsign x) (nsign y))
  end.

(** Float division: a finite value over zero is an infinity of the sign
    of the numerator, and 0/0 is NaN. *)
Definition ndiv (x y : num) : num :=
  match x, y with
  | NaN, _ | _, NaN => NaN
  | Fin a, Fin b =>
      if Qeq_bool b 0 then inf_of_sign (a ?= 0)%Q else Fin (a / b)
  | Fin _, _ => Fin 0
  | _, Fin b =>
      if Qeq_bool b 0 then x else inf_of_sign (mul_sign (nsign x) (nsign y))
  | _, _ => NaN
  end.

(** Python truth value of a number: only zero is false (NaN is true). *)
Definition truthy (x : num) : bool :=
  match x with
  | Fin q => negb (Qeq_bool q 0)
  | _ => true
  end.

(** Equality of numbers up to the representation of the rational. *)
Definition num_eq (x y : num) : Prop :=
  match x, y with
  | NaN, NaN | PInf, PInf | NInf, NInf => True
  | Fin a, Fin b => (a == b)%Q
  | _, _ => False
  end.

Definition Qsum (l : list Q) : Q := foldr Qplus 0%Q l.

Definition Q_of_nat (n : nat) : Q := inject_Z (Z.of_nat n).

(** Round to the nearest integer, ties to the even one. *)
Definition rint (x : Q) : Z :=
  let f := Qfloor x in
  match (x - inject_Z f ?= 1 # 2)%Q with
  | Lt => f
  | Gt => f + 1
  | Eq => if Z.even f then f else f + 1
  end.

(** [round(x, ndigits)] on a finite value. *)
Definition Qround_digits (ndigits : nat) (x : Q) : Q :=
  (inject_Z (rint (x * inject_Z (10 ^ Z.of_nat ndigits)))
   / inject_Z (10 ^ Z.of_nat ndigits))%Q.

Definition nround (ndigits : nat) (x : num) : num :=
  match x with
  | Fin q => Fin (Qround_digits ndigits q)
  | other => other
  end.

(* ================================================================== *)
(** * Timestamps *)
(* ================================================================== *)

(** Nanoseconds since 1970-01-01T00:00:00. *)
Definition Timestamp : Type := Z.

Definition ns_per_day : Z := 86400 * 1000000000.

(** Proleptic Gregorian date [(year, month, day)] of a day number counted
    from 1970-01-01 (the computation behind [.dt.year] and [.dt.month]). *)
Definition civil_from_days (days : Z) : Z * Z * Z :=
  let z := days + 719468 in
  let era := z / 146097 in
  let doe := z - era * 146097 in
  let yoe := (doe - doe / 1460 + doe / 36524 - doe / 146096) / 365 in
  let y := yoe + era * 400 in
  let doy := doe - (365 * yoe + yoe / 4 - yoe / 100) in
  let mp := (5 * doy + 2) / 153 in
  let d := doy - (153 * mp + 2) / 5 + 1 in
  let m := if mp <? 10 then mp + 3 else mp - 9 in
  (if m <=? 2 then y + 1 else y, m, d).

Definition dt_year (t : Timestamp) : Z := (civil_from_days (t / ns_per_day)).1.1.
Definition dt_month (t : Timestamp) : Z := (civil_from_days (t / ns_per_day)).1.2.

(** [Timedelta.days]: the day component of a difference in nanoseconds.
    pandas normalises a timedelta to days plus a non-negative remainder,
    so the day count is the floor of the quotient. *)
Definition td_days (delta : Z) : Z := delta / ns_per_day.

(* ================================================================== *)
(** * pandas primitives *)
(* ================================================================== *)

Section pandas.
Context {A B K : Type} `{EqDecision K}.

(** [left.merge(right, on=key, how='left')]: every left row, in order,
    paired with each right row of the same key in the order of the right
    table, or once with nothing when no right row matches.  Keys are
    compared as cells, so a missing key matches a missing key. *)
Definition merge_row (lkey : A → K) (rkey : B → K) (right : list B) (l : A)
    : list (A * option B) :=
  match filter (λ r, rkey r = lkey l) right with
  | [] => [(l, None)]
  | matches => (λ r, (l, Some r)) <$> matches
  end.

Definition merge_left (lkey : A → K) (rkey : B → K)
    (left : list A) (right : list B) : list (A * option B) :=
  l ← left; merge_row lkey rkey right l.

(** [drop_duplicates(subset=key, keep='first')]. *)
Fixpoint drop_duplicates_from (key : A → K) (seen : list K) (l : list A)
    : list A :=
  match l with
  | [] => []
  | x :: l' =>
      if decide (key x ∈ seen) then drop_duplicates_from key seen l'
      else x :: drop_duplicates_from key (key x :: seen) l'
  end.

Definition drop_duplicates (key : A → K) (l : list A) : list A :=
  drop_duplicates_from key [] l.

(** [Series.nunique()]: number of distinct values, missing excluded. *)
Definition nunique (key : A → option K) (l : list A) : nat :=
  length (remove_dups (omap key l)).

(** [Series.count()]: number of present values. *)
Definition count (key : A → option K) (l : list A) : nat :=
  length (omap key l).

(** [groupby(key)]: one group per distinct present key, the groups in
    ascending key order, each holding its rows in table order; rows
    whose key is missing belong to no group. *)
Definition group_keys (le : relation K) `{!∀ x y, Decision (le x y)}
    (key : A → option K) (l : list A) : list K :=
  merge_sort le (remove_dups (omap key l)).

Definition groupby (le : relation K) `{!∀ x y, Decision (le x y)}
    (key : A → option K) (l : list A) : list (K * list A) :=
  (λ k, (k, filter (λ r, key r = Some k) l)) <$> group_keys le key l.
End pandas.

(** [Series.sum()] of a float column: missing cells are skipped. *)
Definition sum_skipna (l : list (option Q)) : Q := Qsum (omap id l).

(** [Series.mean()]: mean of the present cells, NaN when there are none. *)
Definition mean_skipna (l : list (option Q)) : num :=
  match omap id l with
  | [] => NaN
  | v => Fin (Qsum v / Q_of_nat (length v))
  end.

(** [Series.pct_change()]: each value divided by its predecessor, minus
    one; the first has no predecessor. *)
Definition pct_change_series (l : list num) : list num :=
  zip_with (λ x prev, nsub (ndiv x prev) (Fin 1)) l (NaN :: l).

(** Order used by pandas to sort string keys. *)
Definition string_le (s1 s2 : string) : Prop := String.leb s1 s2 = true.

Global Instance string_le_dec s1 s2 : Decision (string_le s1 s2).
Proof. unfold string_le. apply _. Defined.

(* ================================================================== *)
(** * data_loader.py *)
(* ================================================================== *)

(** ** Raw tables

    Each record lists the columns that [process_data] selects from the
    table; the selection drops every other column of the CSV file. *)

Record item : Type := {
  i_order_id : option string;
  i_order_item_id : option Z;
  i_product_id : option string;
  i_price : option Q;
  i_freight_value : option Q;
}.

Record order : Type := {
  o_order_id : option string;
  o_customer_id : option string;
  o_order_status : option string;
  o_order_purchase_timestamp : option Timestamp;
  o_order_delivered_customer_date : option Timestamp;
}.

Record product : Type := {
  p_product_id : option string;
  p_product_category_name : option string;
}.

Record customer : Type := {
  c_customer_id : option string;
  c_customer_state : option string;
  c_customer_city : option string;
}.

Record review : Type := {
  r_order_id : option string;
  r_review_score : option Z;
}.

(** The dict [self.raw] once [load_raw_data] has filled it (the payments
    table is loaded but never read). *)
Record raw_tables : Type := {
  orders : list order;
  order_items : list item;
  products : list product;
  customers : list customer;
  reviews : list review;
}.

(** ** The merged sales record *)

Record sale : Type := {
  order_id : option string;
  order_item_id : option Z;
  product_id : option string;
  price : option Q;
  freight_value : option Q;
  customer_id : option string;
  order_status : option string;
  order_purchase_timestamp : option Timestamp;
  order_delivered_customer_date : option Timestamp;
  product_category_name : option string;
  customer_state : option string;
  customer_city : option string;
  review_score : option Z;
  purchase_year : option Z;
  purchase_month : option Z;
  delivery_days : option Z;
}.

(** ** The four merges of [process_data] *)

Definition with_order : Type := item * option order.
Definition with_product : Type := with_order * option product.
Definition with_customer : Type := with_product * option customer.
Definition with_review : Type := with_customer * option review.

(** Merge order items with order header. *)
Definition merge_orders (items : list item) (os : list order)
    : list with_order :=
  merge_left i_order_id o_order_id items os.

(** Attach product category. *)
Definition merge_products (df : list with_order) (ps : list product)
    : list with_product :=
  merge_left (λ r : with_order, i_product_id r.1) p_product_id df ps.

(** Attach customer state; the key column [customer_id] came with the
    order and is missing when no order matched. *)
Definition merge_customers (df : list with_product) (cs : list customer)
    : list with_customer :=
  merge_left (λ r : with_product, r.1.2 ≫= o_customer_id) c_customer_id df cs.

(** One review per order: drop duplicates before merging. *)
Definition reviews_deduped (rs : list review) : list review :=
  drop_duplicates r_order_id rs.

Definition merge_reviews (df : list with_customer) (rs : list review)
    : list with_review :=
  merge_left (λ r : with_customer, i_order_id r.1.1.1) r_order_id df
    (reviews_deduped rs).

Definition merged (raw : raw_tables) : list with_review :=
  merge_reviews
    (merge_customers
       (merge_products
          (merge_orders (order_items raw) (orders raw))
          (products raw))
       (customers raw))
    (reviews raw).

(** The row of the flat table, with the derived columns:
    purchase year and month from [order_purchase_timestamp], and the day
    component of delivery minus purchase. *)
Definition flat_row (r : with_review) : sale :=
  let '(i, o, p, c, rv) := r in
  let purchased := o ≫= o_order_purchase_timestamp in
  let delivered := o ≫= o_order_delivered_customer_date in
  {| order_id := i_order_id i;
     order_item_id := i_order_item_id i;
     product_id := i_product_id i;
     price := i_price i;
     freight_value := i_freight_value i;
     customer_id := o ≫= o_customer_id;
     order_status := o ≫= o_order_status;
     order_purchase_timestamp := purchased;
     order_delivered_customer_date := delivered;
     product_category_name := p ≫= p_product_category_name;
     customer_state := c ≫= c_customer_state;
     customer_city := c ≫= c_customer_city;
     review_score := rv ≫= r_review_score;
     purchase_year := dt_year <$> purchased;
     purchase_month := dt_month <$> purchased;
     delivery_days :=
       d ← delivered; p ← purchased; Some (td_days (d - p)) |}.

(** The table built by [process_data] from the raw tables. *)
Definition process_table (raw : raw_tables) : list sale :=
  flat_row <$> merged raw.


(** ** Row selection of [create_sales_dataset] *)

(** [df[df[col] == v]]: a missing cell is equal to nothing. *)
Definition select_eq {V} `{EqDecision V} (col : sale → option V) (v : V)
    (df : list sale) : list sale :=
  filter (λ r, col r = Some v) df.

Definition filter_sales (year_filter month_filter : option Z)
    (status_filter : option string) (df : list sale) : list sale :=
  let df := match status_filter with
            | Some s => select_eq order_status s df
            | None => df
            end in
  let df := match year_filter with
            | Some y => select_eq purchase_year y df
            | None => df
            end in
  let df := match month_filter with
            | Some m => select_eq purchase_month m df
            | None => df
            end in
  df.

(** The condition a row has to meet for given filters: a filter that is
    [None] asks nothing of its column. *)
Definition meets {V} (filter : option V) (cell : option V) : Prop :=
  match filter with
  | Some v => cell = Some v
  | None => True
  end.

Global Instance meets_dec {V} `{EqDecision V} (f c : option V) :
  Decision (meets f c).
Proof. destruct f; simpl; apply _. Defined.

Definition keeps (year_filter month_filter : option Z)
    (status_filter : option string) (r : sale) : Prop :=
  meets status_filter (order_status r) ∧
  meets year_filter (purchase_year r) ∧
  meets month_filter (purchase_month r).

Global Instance keeps_dec y m s r : Decision (keeps y m s r).
Proof. unfold keeps. apply _. Defined.

(** ** The loader object and the store of data frames *)

Inductive exn : Type :=
  | TypeError
  | FileNotFoundError
  | InvalidReference.

Inductive res (X : Type) : Type :=
  | Ok (x : X)
  | Raise (e : exn).
Arguments Ok {X} x.
Arguments Raise {X} e.

Definition res_bind {X Y} (m : res X) (k : X → res Y) : res Y :=
  match m with
  | Ok x => k x
  | Raise e => Raise e
  end.

Global Instance res_ret : MRet res := @Ok.
Global Instance res_mbind : MBind res := λ X Y k m, res_bind m k.

(** A data frame object: index label and row, in row order. *)
Definition DataFrame : Type := list (nat * sale).

Definition df_rows (df : DataFrame) : list sale := df.*2.

(** A frame with the default index [0 .. n-1]. *)
Definition range_indexed (rows : list sale) : DataFrame :=
  zip (seq 0 (length rows)) rows.

Definition loc : Type := positive.

Record loader : Type := {
  data_path : string;
  raw : option raw_tables;      (* [None]: the empty dict *)
  processed : option loc;       (* reference to the processed frame *)
}.

Record state : Type := {
  self : loader;
  heap : gmap loc DataFrame;
  files : gmap string raw_tables;  (* parsed CSV directory per path *)
}.

(** Computations that read and update the state and may raise. *)
Record M (X : Type) : Type := MkM { run : state → res X * state }.
Arguments MkM {X} run.
Arguments run {X} m st.

Definition ret {X} (x : X) : M X := MkM (λ st, (Ok x, st)).
Definition raise {X} (e : exn) : M X := MkM (λ st, (Raise e, st)).
Definition bind {X Y} (m : M X) (k : X → M Y) : M Y :=
  MkM (λ st, match run m st with
             | (Ok x, st') => run (k x) st'
             | (Raise e, st') => (Raise e, st')
             end).

Global Instance M_ret : MRet M := @ret.
Global Instance M_bind : MBind M := λ X Y k m, bind m k.

Definition get_self : M loader := MkM (λ st, (Ok (self st), st)).
Definition set_self (l : loader) : M unit :=
  MkM (λ st, (Ok tt, {| self := l; heap := heap st; files := files st |})).

(** Allocate a new data frame object. *)
Definition alloc (df : DataFrame) : M loc :=
  MkM (λ st, let l := fresh (dom (heap st)) in
             (Ok l, {| self := self st; heap := <[l := df]> (heap st);
                       files := files st |})).

Definition deref (l : loc) : M DataFrame :=
  MkM (λ st, match heap st !! l with
             | Some df => (Ok df, st)
             | None => (Raise InvalidReference, st)
             end).

(** The parsed tables found at a path, as [pd.read_csv] and
    [pd.to_datetime] deliver them. *)
Definition read_tables (path : string) : M raw_tables :=
  MkM (λ st, match files st !! path with
             | Some t => (Ok t, st)
             | None => (Raise FileNotFoundError, st)
             end).

(** [load_raw_data]: read the tables at [data_path] into [self.raw]. *)
Definition load_raw_data : M raw_tables :=
  s ← get_self;
  t ← read_tables (data_path s);
  set_self {| data_path := data_path s; raw := Some t;
              processed := processed s |};;
  mret t.

(** [process_data]: builds the flat table, stores a reference to it in
    [self.processed] and returns that same reference. *)
Definition process_data : M loc :=
  s ← get_self;
  t ← match raw s with
       | Some t => mret t
       | None => load_raw_data
       end;
  df ← alloc (range_indexed (process_table t));
  s ← get_self;
  set_self {| data_path := data_path s; raw := raw s;
              processed := Some df |};;
  mret df.

(** [df.copy()], [df[mask]] and [df.reset_index(drop=True)] each return
    a new object. *)
Definition df_copy (l : loc) : M loc := df ← deref l; alloc df.

Definition df_select {V} `{EqDecision V} (col : sale → option V) (v : V)
    (l : loc) : M loc :=
  df ← deref l;
  alloc (filter (λ ir : nat * sale, col ir.2 = Some v) df).

Definition df_reset_index (l : loc) : M loc :=
  df ← deref l; alloc (range_indexed (df_rows df)).

Definition create_sales_dataset (year_filter month_filter : option Z)
    (status_filter : option string) : M loc :=
  s ← get_self;
  p ← match processed s with
       | Some p => mret p
       | None => process_data
       end;
  df ← df_copy p;
  df ← match status_filter with
        | Some v => df_select order_status v df
        | None => mret df
        end;
  df ← match year_filter with
        | Some v => df_select purchase_year v df
        | None => mret df
        end;
  df ← match month_filter with
        | Some v => df_select purchase_month v df
        | None => mret df
        end;
  df_reset_index df.

(** [st'] differs from [st] by newly allocated frames only: the loader
    object, the files and every frame of [st] are as they were. *)
Definition extends (st st' : state) : Prop :=
  self st' = self st ∧ files st' = files st ∧ heap st ⊆ heap st'.

(** A call of [create_sales_dataset]: an argument that is not passed
    takes the default of the signature,
    [year_filter=None, month_filter=None, status_filter='delivered']. *)
Record call_args : Type := {
  arg_year_filter : option (option Z);
  arg_month_filter : option (option Z);
  arg_status_filter : option (option string);
}.

Definition call_create_sales_dataset (args : call_args) : M loc :=
  create_sales_dataset
    (default None (arg_year_filter args))
    (default None (arg_month_filter args))
    (default (Some "delivered"%string) (arg_status_filter args)).

(* ================================================================== *)
(** * business_metrics.py *)
(* ================================================================== *)

(** Python values stored in the result dicts. *)
Inductive pyval : Type :=
  | PyNone
  | PyInt (n : Z)
  | PyFloat (x : num).

(** [round(v, ndigits)]: [None] cannot be rounded. *)
Definition py_round (v : pyval) (ndigits : nat) : res pyval :=
  match v with
  | PyNone => Raise TypeError
  | PyInt n => Ok (PyInt n)
  | PyFloat x => Ok (PyFloat (nround ndigits x))
  end.

(** A dict display [{k1: v1, k2: v2, ...}]: the items are stored from
    left to right, a later item replacing an earlier one of the same key. *)
Definition dict_of_items (items : list (string * pyval)) : gmap string pyval :=
  foldl (λ d kv, <[kv.1 := kv.2]> d) ∅ items.

(** ** Revenue metrics *)

(** [sales['price'].sum()]. *)
Definition total_revenue (sales : list sale) : Q :=
  sum_skipna (price <$> sales).

(** [sales.groupby('order_id')['price'].sum()]. *)
Definition order_totals (sales : list sale) : list (string * Q) :=
  (λ g, (g.1, sum_skipna (price <$> g.2))) <$> groupby string_le order_id sales.

(** [sales.groupby('order_id')['price'].sum().mean()]. *)
Definition mean_order_total (sales : list sale) : num :=
  mean_skipna (Some <$> (order_totals sales).*2).

(** The local function [pct_change] of [calculate_revenue_metrics]. *)
Definition pct_change (new old : num) : pyval :=
  if truthy old then PyFloat (nmul (ndiv (nsub new old) old) (Fin 100))
  else PyNone.

Definition calculate_revenue_metrics (current_sales comparison_sales : list sale)
    (current_year comparison_year : Z) : res (gmap string pyval) :=
  let rev_cur := Fin (total_revenue current_sales) in
  let rev_comp := Fin (total_revenue comparison_sales) in
  let orders_cur := nunique order_id current_sales in
  let orders_comp := nunique order_id comparison_sales in
  let aov_cur := mean_order_total current_sales in
  let aov_comp := mean_order_total comparison_sales in
  total_revenue_cur ← py_round (PyFloat rev_cur) 2;
  total_revenue_comp ← py_round (PyFloat rev_comp) 2;
  revenue_growth_pct ← py_round (pct_change rev_cur rev_comp) 2;
  order_growth_pct ←
    py_round (pct_change (Fin (Q_of_nat orders_cur))
                         (Fin (Q_of_nat orders_comp))) 2;
  aov_cur_rounded ← py_round (PyFloat aov_cur) 2;
  aov_comp_rounded ← py_round (PyFloat aov_comp) 2;
  aov_growth_pct ← py_round (pct_change aov_cur aov_comp) 2;
  Ok (dict_of_items
        [ ("current_year", PyInt current_year);
          ("comparison_year", PyInt comparison_year);
          ("total_revenue_" +:+ pretty current_year, total_revenue_cur);
          ("total_revenue_" +:+ pretty comparison_year, total_revenue_comp);
          ("revenue_growth_pct", revenue_growth_pct);
          ("total_orders_" +:+ pretty current_year,
            PyInt (Z.of_nat orders_cur));
          ("total_orders_" +:+ pretty comparison_year,
            PyInt (Z.of_nat orders_comp));
          ("order_growth_pct", order_growth_pct);
          ("aov_" +:+ pretty current_year, aov_cur_rounded);
          ("aov_" +:+ pretty comparison_year, aov_comp_rounded);
          ("aov_growth_pct", aov_growth_pct) ]%string).

(** ** Monthly revenue *)

Record monthly_row : Type := {
  m_purchase_month : Z;
  m_revenue : Q;
  m_mom_growth_pct : num;
}.

Definition month_le (a b : Z * Q) : Prop := a.1 ≤ b.1.

Global Instance month_le_dec a b : Decision (month_le a b).
Proof. unfold month_le. apply _. Defined.

(** The frame [monthly] before the growth column is added: revenue per
    month, sorted by month. *)
Definition monthly_totals (sales : list sale) : list (Z * Q) :=
  merge_sort month_le
    ((λ g, (g.1, sum_skipna (price <$> g.2)))
       <$> groupby Z.le purchase_month sales).

Definition calculate_monthly_revenue (sales : list sale) : list monthly_row :=
  let monthly := monthly_totals sales in
  zip_with
    (λ mr growth,
       {| m_purchase_month := mr.1;
          m_revenue := mr.2;
          m_mom_growth_pct := nmul growth (Fin 100) |})
    monthly
    (pct_change_series (Fin <$> monthly.*2)).

(** ** Geographic metrics *)

Record geo_row : Type := {
  g_customer_state : string;
  g_revenue : Q;
  g_order_count : nat;
  g_aov : num;
}.

Definition revenue_desc (a b : geo_row) : Prop :=
  Qle_bool (g_revenue b) (g_revenue a) = true.

Global Instance revenue_desc_dec a b : Decision (revenue_desc a b).
Proof. unfold revenue_desc. apply _. Defined.

(** The row of one state group: revenue, distinct orders, and their
    quotient rounded to two places. *)
Definition geo_of_group (g : string * list sale) : geo_row :=
  let revenue := sum_skipna (price <$> g.2) in
  let order_count := nunique order_id g.2 in
  {| g_customer_state := g.1;
     g_revenue := revenue;
     g_order_count := order_count;
     g_aov := nround 2 (ndiv (Fin revenue) (Fin (Q_of_nat order_count))) |}.

Definition calculate_geographic_metrics (sales : list sale) : list geo_row :=
  merge_sort revenue_desc
    (geo_of_group <$> groupby string_le customer_state sales).

(** ** Delivery metrics *)

(** [x <= y] on floats; every comparison with NaN is false. *)
Definition nleb (x y : num) : bool :=
  match x, y with
  | NaN, _ | _, NaN => false
  | NInf, _ | _, PInf => true
  | Fin a, Fin b => Qle_bool a b
  | _, _ => false
  end.

Definition _bucket_delivery (days : num) : string :=
  match days with
  | NaN => "unknown"
  | _ =>
      if nleb days (Fin 3) then "1-3 days"
      else if nleb days (Fin 7) then "4-7 days"
      else "8+ days"
  end.

(** A cell of an integer-valued float column as a float. *)
Definition num_of_cell (c : option Z) : num :=
  match c with
  | Some z => Fin (inject_Z z)
  | None => NaN
  end.

Definition Q_cells (l : list (option Z)) : list (option Q) :=
  (λ c : option Z, inject_Z <$> c) <$> l.

Record bucket_row : Type := {
  b_delivery_time : option string;   (* categorical; [None] is NaN *)
  b_avg_review_score : num;
  b_order_count : nat;
}.

Definition bucket_order : list string := ["1-3 days"; "4-7 days"; "8+ days"].

(** [pd.Categorical(values, categories=cats)]: a value that is not one of
    the categories becomes missing. *)
Definition categorical (cats : list string) (v : string) : option string :=
  if decide (v ∈ cats) then Some v else None.

(** Position of a categorical cell in the sort order: the categories in
    their declared order, missing cells last. *)
Fixpoint cat_index (cats : list string) (v : string) : nat :=
  match cats with
  | [] => 0
  | c :: cats' => if decide (c = v) then 0%nat else S (cat_index cats' v)
  end.

Definition cat_rank (cats : list string) (c : option string) : nat :=
  match c with
  | Some v => cat_index cats v
  | None => length cats
  end.

Definition bucket_le (a b : bucket_row) : Prop :=
  (cat_rank bucket_order (b_delivery_time a)
   ≤ cat_rank bucket_order (b_delivery_time b))%nat.

Global Instance bucket_le_dec a b : Decision (bucket_le a b).
Proof. unfold bucket_le. apply _. Defined.

(** One row per order: [sales[[...]].drop_duplicates('order_id')]. *)
Definition order_level (sales : list sale) : list sale :=
  drop_duplicates order_id sales.

(** The column [delivery_time] added to the order-level frame. *)
Definition delivery_time (r : sale) : string :=
  _bucket_delivery (num_of_cell (delivery_days r)).

(** The grouped frame before the labels are made categorical. *)
Definition bucket_groups (sales : list sale) : list (string * list sale) :=
  groupby string_le (λ r, Some (delivery_time r)) (order_level sales).

Definition bucket_of_group (g : string * list sale) : bucket_row :=
  {| b_delivery_time := categorical bucket_order g.1;
     b_avg_review_score := mean_skipna (Q_cells (review_score <$> g.2));
     b_order_count := count order_id g.2 |}.

Definition delivery_bucket_summary (sales : list sale) : list bucket_row :=
  merge_sort bucket_le (bucket_of_group <$> bucket_groups sales).

Record delivery_metrics : Type := {
  avg_delivery_days : num;
  avg_review_score : num;
  bucket_summary : list bucket_row;
}.

Definition calculate_delivery_metrics (sales : list sale) : delivery_metrics :=
  let ol := order_level sales in
  let avg_days := mean_skipna (Q_cells (delivery_days <$> ol)) in
  let avg_score := mean_skipna (Q_cells (review_score <$> ol)) in
  {| avg_delivery_days := nround 1 avg_days;
     avg_review_score := nround 2 avg_score;
     bucket_summary := delivery_bucket_summary sales |}.

(** ** Average order value as the specification words it *)

(** Total revenue divided by the number of distinct orders. *)
Definition aov_spec (sales : list sale) : num :=
  ndiv (Fin (total_revenue sales)) (Fin (Q_of_nat (nunique order_id sales))).

(* ================================================================== *)
(** * Sample data *)
(* ================================================================== *)

Definition sample_item (oid pid : string) (p : Q) : item :=
  {| i_order_id := Some oid; i_order_item_id := Some 1;
     i_product_id := Some pid; i_price := Some p;
     i_freight_value := Some 0%Q |}.

Definition sample_order (oid cid status : string)
    (purchased delivered : option Timestamp) : order :=
  {| o_order_id := Some oid; o_customer_id := Some cid;
     o_order_status := Some status;
     o_order_purchase_timestamp := purchased;
     o_order_delivered_customer_date := delivered |}.

(** A sales row with the columns that the metrics read. *)
Definition sample_sale (oid : option string) (p : option Q)
    (state : option string) (month : option Z) (days : option Z)
    (score : option Z) : sale :=
  {| order_id := oid; order_item_id := None; product_id := None;
     price := p; freight_value := None; customer_id := None;
     order_status := Some "delivered"%string;
     order_purchase_timestamp := None;
     order_delivered_customer_date := None;
     product_category_name := None; customer_state := state;
     customer_city := None; review_score := score;
     purchase_year := Some 2023; purchase_month := month;
     delivery_days := days |}.

(** One order bought on 1970-01-02 00:00 and recorded as delivered twelve
    hours earlier. *)
Definition early_delivery_raw : raw_tables :=
  {| orders := [sample_order "o1" "c1" "delivered"
                  (Some ns_per_day) (Some (ns_per_day / 2))];
     order_items := [sample_item "o1" "p1" 10];
     products := []; customers := []; reviews := [] |}%string.

(** Two items of order o1 bought 2023-03-15 12:00 and delivered
    2023-03-18 18:00, one item of an order that is not in the orders
    table, and two reviews of o1. *)
Definition sample_raw : raw_tables :=
  {| orders := [sample_order "o1" "c1" "delivered"
                  (Some (19431 * ns_per_day + ns_per_day / 2))
                  (Some (19434 * ns_per_day + 3 * (ns_per_day / 4)))];
     order_items := [sample_item "o1" "p1" 10; sample_item "o1" "p2" (7 # 2);
                     sample_item "o9" "p1" 5];
     products := [{| p_product_id := Some "p1";
                     p_product_category_name := Some "toys" |}];
     customers := [{| c_customer_id := Some "c1";
                      c_customer_state := Some "SP";
                      c_customer_city := Some "sao paulo" |}];
     reviews := [{| r_order_id := Some "o1"; r_review_score := Some 5 |};
                 {| r_order_id := Some "o1"; r_review_score := Some 1 |}] |}%string.

(** The first row of the flat table of each of the two raw samples. *)
Definition sample_row : sale :=
  Eval vm_compute in
    default (sample_sale None None None None None None)
      (head (process_table sample_raw)).

Definition early_row : sale :=
  Eval vm_compute in
    default (sample_sale None None None None None None)
      (head (process_table early_delivery_raw)).

(** A sales table in which one row has no order id. *)
Definition sales_missing_order_id : list sale :=
  [sample_sale (Some "a") (Some 10%Q) (Some "SP") (Some 1) (Some 2) (Some 5);
   sample_sale None (Some 5%Q) (Some "SP") (Some 1) (Some 2) None]%string.

Definition sample_sales : list sale :=
  [sample_sale (Some "b") (Some 10%Q) (Some "SP") (Some 2) (Some 2) (Some 5);
   sample_sale (Some "a") (Some 5%Q) (Some "RJ") (Some 1) (Some 9) (Some 3);
   sample_sale (Some "b") (Some (7 # 2)%Q) (Some "SP") (Some 2) (Some 2) (Some 5)]%string.

(** One order whose delivery date is missing. *)
Definition sales_undelivered : list sale :=
  [sample_sale (Some "a") (Some 10%Q) (Some "SP") (Some 1) None (Some 4)]%string.

(** A loader whose processed table has been built from [sample_raw]. *)
Definition sample_state : state :=
  {| self := {| data_path := "ecommerce_data/"; raw := Some sample_raw;
                processed := Some 1%positive |};
     heap := {[ 1%positive := range_indexed (process_table sample_raw) ]};
     files := {[ "ecommerce_data/"%string := sample_raw ]} |}.

(* ================================================================== *)
(** * Properties of the number model *)
(* ================================================================== *)

Global Instance num_eq_equiv : Equivalence num_eq.
Proof.
  split.
  - intros []; simpl; auto with qarith.
  - intros [] []; simpl; auto with qarith.
  - intros [] [] []; simpl; try tauto. apply Qeq_trans.
Qed.

Lemma Qeq_bool_false (a : Q) : ¬ (a == 0)%Q → Qeq_bool a 0 = false.
Proof.
  intros Ha. destruct (Qeq_bool a 0) eqn:E; [|done].
  apply Qeq_bool_eq in E. contradiction.
Qed.

Lemma Qeq_bool_true (a : Q) : (a == 0)%Q → Qeq_bool a 0 = true.
Proof. apply Qeq_eq_bool. Qed.

Lemma rint_proper (x y : Q) : (x == y)%Q → rint x = rint y.
Proof.
  intros E. unfold rint.
  rewrite (Qfloor_comp _ _ E).
  assert (x - inject_Z (Qfloor y) == y - inject_Z (Qfloor y))%Q as ->
    by (rewrite E; reflexivity).
  reflexivity.
Qed.

Lemma Qround_digits_proper (n : nat) (x y : Q) :
  (x == y)%Q → Qround_digits n x = Qround_digits n y.
Proof.
  intros E. unfold Qround_digits.
  rewrite (rint_proper (x * _) (y * inject_Z (10 ^ Z.of_nat n))); [done|].
  rewrite E. reflexivity.
Qed.

(** Rounding sends equal numbers to identical results. *)
Lemma nround_proper (n : nat) (x y : num) :
  num_eq x y → nround n x = nround n y.
Proof.
  destruct x, y; simpl; try tauto.
  intros E. f_equal. by apply Qround_digits_proper.
Qed.

Lemma Q_of_nat_zero (n : nat) : (Q_of_nat n == 0)%Q ↔ n = 0%nat.
Proof.
  unfold Q_of_nat, Qeq. simpl. split; intros; lia.
Qed.

(** The two ways of writing a relative change agree: [x / prev - 1] is
    [(x - prev) / prev], also when [prev] is zero. *)
Lemma relative_change (a b : Q) :
  num_eq (nsub (ndiv (Fin a) (Fin b)) (Fin 1))
         (ndiv (nsub (Fin a) (Fin b)) (Fin b)).
Proof.
  simpl. destruct (Qeq_bool b 0) eqn:Eb.
  - apply Qeq_bool_eq in Eb.
    assert ((a + - b ?= 0) = (a ?= 0))%Q as ->.
    { apply Qcompare_comp; [|reflexivity]. rewrite Eb. ring. }
    destruct (a ?= 0)%Q; simpl; done.
  - simpl. apply Qeq_bool_neq in Eb. field. done.
Qed.

Lemma nmul_proper_l (x y z : num) : num_eq x y → num_eq (nmul x z) (nmul y z).
Proof.
  destruct x, y; simpl; try tauto; intros E; destruct z; simpl; try done.
  - assert ((q ?= 0) = (q0 ?= 0))%Q as -> by (by apply Qcompare_comp).
    reflexivity.
  - assert ((q ?= 0) = (q0 ?= 0))%Q as -> by (by apply Qcompare_comp).
    reflexivity.
  - by rewrite E.
Qed.

Lemma Qsum_app (l1 l2 : list Q) : (Qsum (l1 ++ l2) == Qsum l1 + Qsum l2)%Q.
Proof.
  induction l1 as [|x l1 IH]; simpl.
  - ring.
  - rewrite IH. ring.
Qed.

(* ================================================================== *)
(** * Properties of the pandas primitives *)
(* ================================================================== *)

Section pandas_facts.
Context {A B K : Type} `{EqDecision K}.
Implicit Types (left : list A) (right : list B).
Implicit Types (lkey : A → K) (rkey : B → K).

Lemma merge_left_cons lkey rkey (l : A) left right :
  merge_left lkey rkey (l :: left) right
  = merge_row lkey rkey right l ++ merge_left lkey rkey left right.
Proof. reflexivity. Qed.


Lemma elem_of_merge_row lkey rkey right l (x : A * option B) :
  x ∈ merge_row lkey rkey right l ↔
  x.1 = l ∧
  match x.2 with
  | None => ∀ r, r ∈ right → rkey r ≠ lkey l
  | Some r => r ∈ right ∧ rkey r = lkey l
  end.
Proof.
  unfold merge_row. destruct x as [a o]. cbn [fst snd].
  assert (∀ b, b ∈ filter (λ r, rkey r = lkey l) right
               ↔ rkey b = lkey l ∧ b ∈ right) as Hf
    by (intros b; apply (list_elem_of_filter (λ r, rkey r = lkey l))).
  destruct (filter _ right) as [|r ms].
  - rewrite list_elem_of_singleton. split.
    + intros [= -> ->]. split; [done|]. intros r Hr Hk.
      apply (not_elem_of_nil r), Hf. done.
    + intros [-> Ho]. destruct o as [r|]; [|done]. destruct Ho.
      exfalso. apply (not_elem_of_nil r), Hf. done.
  - rewrite list_elem_of_fmap. split.
    + intros (r' & [= -> ->] & Hin). apply Hf in Hin as [? ?]. done.
    + intros [-> Ho]. destruct o as [r'|].
      * exists r'. split; [done|]. apply Hf. destruct Ho; done.
      * exfalso. destruct (proj1 (Hf r)) as [? ?]; [left|]. by apply (Ho r).
Qed.

(** Membership in a left merge: the left row is a row of the left
    table, and it carries either a matching right row or nothing when
    the right table has no row of its key. *)
Lemma elem_of_merge_left lkey rkey left right (x : A * option B) :
  x ∈ merge_left lkey rkey left right ↔
  x.1 ∈ left ∧
  match x.2 with
  | None => ∀ r, r ∈ right → rkey r ≠ lkey x.1
  | Some r => r ∈ right ∧ rkey r = lkey x.1
  end.
Proof.
  induction left as [|l left IH].
  - split; [intros H; by apply elem_of_nil in H|].
    intros [H _]. by apply elem_of_nil in H.
  - rewrite merge_left_cons, elem_of_app, IH, elem_of_merge_row.
    rewrite elem_of_cons. split.
    + intros [[<- ?]|[? ?]]; auto.
    + intros [[->|?] ?]; auto.
Qed.


(** Rows kept by [drop_duplicates]: for every key, its first row. *)
Lemma filter_drop_duplicates_from (key : B → K) seen right (k : K) :
  filter (λ r, key r = k) (drop_duplicates_from key seen right)
  = if decide (k ∈ seen) then []
    else option_list (head (filter (λ r, key r = k) right)).
Proof.
  revert seen. induction right as [|x right IH]; intros seen; simpl.
  - by destruct (decide (k ∈ seen)).
  - destruct (decide (key x ∈ seen)) as [Hx|Hx].
    + rewrite IH. destruct (decide (k ∈ seen)) as [|Hk]; [done|].
      rewrite filter_cons. destruct (decide (key x = k)) as [<-|]; done.
    + rewrite !filter_cons. destruct (decide (key x = k)) as [<-|Hne].
      * rewrite IH. rewrite decide_True by left.
        by rewrite decide_False by done.
      * rewrite IH. destruct (decide (k ∈ seen)) as [Hk|Hk].
        -- rewrite decide_True by (by right). done.
        -- rewrite decide_False; [done|].
           rewrite elem_of_cons. intros [?|?]; done.
Qed.

Lemma filter_drop_duplicates (key : B → K) right (k : K) :
  filter (λ r, key r = k) (drop_duplicates key right)
  = option_list (head (filter (λ r, key r = k) right)).
Proof.
  unfold drop_duplicates. rewrite filter_drop_duplicates_from.
  rewrite decide_False; [done|]. apply not_elem_of_nil.
Qed.

Lemma drop_duplicates_from_sublist (key : B → K) seen right :
  drop_duplicates_from key seen right `sublist_of` right.
Proof.
  revert seen. induction right as [|x right IH]; intros seen; simpl.
  - reflexivity.
  - destruct (decide (key x ∈ seen)).
    + by apply sublist_cons.
    + by apply sublist_skip.
Qed.

(** A left merge against a table without duplicate keys pairs every
    left row with the first right row of its key, and nothing else. *)
Lemma merge_left_drop_duplicates lkey (rkey : B → K) left right :
  merge_left lkey rkey left (drop_duplicates rkey right)
  = (λ l, (l, head (filter (λ r, rkey r = lkey l) right))) <$> left.
Proof.
  induction left as [|l left IH]; [done|].
  rewrite merge_left_cons, IH, fmap_cons. f_equal.
  unfold merge_row. rewrite filter_drop_duplicates.
  by destruct (head _).
Qed.
End pandas_facts.

Section groupby_facts.
Context {A K : Type} `{EqDecision K}.
Context (le : relation K) `{!∀ x y, Decision (le x y)}.
Implicit Types (key : A → option K) (l : list A).

Lemma group_keys_perm key l :
  group_keys le key l ≡ₚ remove_dups (omap key l).
Proof. apply merge_sort_Permutation. Qed.

Lemma NoDup_group_keys key l : NoDup (group_keys le key l).
Proof. rewrite group_keys_perm. apply NoDup_remove_dups. Qed.

(** The groups are the keys that some row carries. *)
Lemma elem_of_group_keys key l (k : K) :
  k ∈ group_keys le key l ↔ ∃ r, r ∈ l ∧ key r = Some k.
Proof.
  rewrite group_keys_perm, elem_of_remove_dups. apply list_elem_of_omap.
Qed.

Lemma length_group_keys key l :
  length (group_keys le key l) = nunique key l.
Proof. unfold nunique. by rewrite group_keys_perm. Qed.

Lemma groupby_keys key l : (groupby le key l).*1 = group_keys le key l.
Proof.
  unfold groupby.
  induction (group_keys le key l) as [|k ks IH]; [done|].
  rewrite !fmap_cons. by rewrite IH.
Qed.

Lemma elem_of_groupby key l (g : K * list A) :
  g ∈ groupby le key l ↔
  g.1 ∈ group_keys le key l ∧ g.2 = filter (λ r, key r = Some g.1) l.
Proof.
  unfold groupby. rewrite list_elem_of_fmap. split.
  - intros (k & -> & Hk). done.
  - intros [Hk Hg]. exists g.1. split; [|done].
    destruct g as [k rows]. simpl in *. by rewrite Hg.
Qed.

Lemma group_keys_sorted `{!Transitive le, !Total le} key l :
  StronglySorted le (group_keys le key l).
Proof. apply StronglySorted_merge_sort; apply _. Qed.
End groupby_facts.

(** ** Sums over groups *)

Lemma sum_skipna_cons (o : option Q) (l : list (option Q)) :
  (sum_skipna (o :: l) == default 0 o + sum_skipna l)%Q.
Proof.
  unfold sum_skipna. destruct o; simpl.
  - reflexivity.
  - symmetry. apply Qplus_0_l.
Qed.

Lemma Qsum_cons (x : Q) (l : list Q) : Qsum (x :: l) = (x + Qsum l)%Q.
Proof. reflexivity. Qed.

Lemma Qsum_fmap_ext {K} (f g : K → Q) (keys : list K) :
  (∀ k, f k == g k)%Q → (Qsum (f <$> keys) == Qsum (g <$> keys))%Q.
Proof.
  intros E. induction keys as [|k keys IH]; [reflexivity|].
  rewrite !fmap_cons, !Qsum_cons. by rewrite IH, E.
Qed.

Lemma Qsum_fmap_plus {K} (f g : K → Q) (keys : list K) :
  (Qsum ((λ k, f k + g k) <$> keys)
   == Qsum (f <$> keys) + Qsum (g <$> keys))%Q.
Proof.
  induction keys as [|k keys IH]; [reflexivity|].
  rewrite !fmap_cons, !Qsum_cons, IH. ring.
Qed.

Lemma Qsum_zero {K} (keys : list K) : (Qsum ((λ _, 0) <$> keys) == 0)%Q.
Proof.
  induction keys as [|k keys IH]; [reflexivity|].
  rewrite fmap_cons, Qsum_cons, IH. reflexivity.
Qed.

(** A value placed at one key of a duplicate-free key list is counted
    exactly once. *)
Lemma Qsum_at_key {K} `{EqDecision K} (k0 : K) (c : Q) (keys : list K) :
  NoDup keys →
  (Qsum ((λ k, if decide (k = k0) then c else 0) <$> keys)
   == if decide (k0 ∈ keys) then c else 0)%Q.
Proof.
  induction 1 as [|k keys Hk Hnd IH].
  - rewrite decide_False by apply not_elem_of_nil. reflexivity.
  - rewrite fmap_cons, Qsum_cons, IH. destruct (decide (k = k0)) as [->|Hne].
    + rewrite (decide_False (P := k0 ∈ keys)) by done.
      rewrite decide_True by left. ring.
    + destruct (decide (k0 ∈ keys)) as [Hin|Hin].
      * rewrite decide_True by (by right). ring.
      * rewrite decide_False; [ring|].
        rewrite elem_of_cons. intros [?|?]; congruence.
Qed.

(** Summing a column group by group gives the sum of the column, as long
    as every row belongs to one of the groups. *)
Lemma sum_by_groups {A K} `{EqDecision K} (key : A → option K)
    (val : A → option Q) (keys : list K) (l : list A) :
  NoDup keys →
  (∀ r, r ∈ l → ∃ k, key r = Some k ∧ k ∈ keys) →
  (Qsum ((λ k, sum_skipna (val <$> filter (λ r, key r = Some k) l)) <$> keys)
   == sum_skipna (val <$> l))%Q.
Proof.
  intros Hnd. induction l as [|r l IH]; intros Hall.
  - simpl. apply Qsum_zero.
  - destruct (Hall r) as (k0 & Hk0 & Hin); [left|].
    rewrite fmap_cons, sum_skipna_cons.
    rewrite <- IH by (intros; apply Hall; by right).
    rewrite (Qsum_fmap_ext _
      (λ k, (if decide (k = k0) then default 0 (val r) else 0)
            + sum_skipna (val <$> filter (λ r, key r = Some k) l))%Q).
    + rewrite Qsum_fmap_plus, Qsum_at_key by done.
      rewrite decide_True by done. reflexivity.
    + intros k. rewrite filter_cons.
      destruct (decide (key r = Some k)) as [E|E].
      * rewrite decide_True by congruence.
        rewrite fmap_cons, sum_skipna_cons. reflexivity.
      * rewrite decide_False by congruence. ring.
Qed.

(* ================================================================== *)
(** * data_loader.py: the flat table *)
(* ================================================================== *)



(** A row of the flat table comes from an item, with what each merge
    found for it. *)
Lemma elem_of_process_table (raw : raw_tables) (r : sale) :
  r ∈ process_table raw ↔
  ∃ i o p c v, r = flat_row (i, o, p, c, v) ∧ (i, o, p, c, v) ∈ merged raw.
Proof.
  unfold process_table. rewrite list_elem_of_fmap. split.
  - intros ([[[[i o] p] c] v] & -> & Hin). by exists i, o, p, c, v.
  - intros (i & o & p & c & v & -> & Hin). by exists (i, o, p, c, v).
Qed.

Lemma elem_of_merged (raw : raw_tables) i o p c v :
  (i, o, p, c, v) ∈ merged raw →
  i ∈ order_items raw ∧
  match o with
  | None => ∀ x, x ∈ orders raw → o_order_id x ≠ i_order_id i
  | Some x => x ∈ orders raw ∧ o_order_id x = i_order_id i
  end ∧
  match p with
  | None => ∀ x, x ∈ products raw → p_product_id x ≠ i_product_id i
  | Some x => x ∈ products raw ∧ p_product_id x = i_product_id i
  end ∧
  match c with
  | None => ∀ x, x ∈ customers raw → c_customer_id x ≠ o ≫= o_customer_id
  | Some x => x ∈ customers raw ∧ c_customer_id x = o ≫= o_customer_id
  end ∧
  v = head (filter (λ x, r_order_id x = i_order_id i) (reviews raw)).
Proof.
  unfold merged, merge_reviews, reviews_deduped.
  rewrite merge_left_drop_duplicates, list_elem_of_fmap.
  intros ([[[i' o'] p'] c'] & [= -> -> -> -> ->] & Hin).
  unfold merge_customers, merge_products, merge_orders in Hin.
  apply elem_of_merge_left in Hin as [Hin Hc].
  apply elem_of_merge_left in Hin as [Hin Hp].
  apply elem_of_merge_left in Hin as [Hin Ho].
  simpl in *. done.
Qed.


Lemma process_data_left_joins_sample :
  order_id <$> process_table sample_raw
  = [Some "o1"; Some "o1"; Some "o9"]%string
  ∧ order_status <$> process_table sample_raw
    = [Some "delivered"; Some "delivered"; None]%string
  ∧ review_score <$> process_table sample_raw = [Some 5; Some 5; None].
Proof. by vm_compute. Qed.

(** C7: the review merge pairs every row of the table being built with
    the first review of its order, or with nothing; it neither adds nor
    removes rows, and all rows of one order carry the same review score. *)
Theorem review_merge_one_per_order (raw : raw_tables) :
  let df := merge_customers
              (merge_products (merge_orders (order_items raw) (orders raw))
                 (products raw))
              (customers raw) in
  merge_reviews df (reviews raw)
  = (λ l : with_customer,
       (l, head (filter (λ v, r_order_id v = i_order_id l.1.1.1) (reviews raw))))
    <$> df
  ∧ length (merge_reviews df (reviews raw)) = length df
  ∧ length (process_table raw) = length df
  ∧ (∀ r, r ∈ process_table raw →
       review_score r
       = head (filter (λ v, r_order_id v = order_id r) (reviews raw))
         ≫= r_review_score)
  ∧ (∀ r1 r2, r1 ∈ process_table raw → r2 ∈ process_table raw →
       order_id r1 = order_id r2 → review_score r1 = review_score r2).
Proof.
  intros df.
  assert (merge_reviews df (reviews raw)
          = (λ l : with_customer,
               (l, head (filter (λ v, r_order_id v = i_order_id l.1.1.1)
                           (reviews raw)))) <$> df) as Hm
    by apply merge_left_drop_duplicates.
  assert (∀ r, r ∈ process_table raw →
            review_score r
            = head (filter (λ v, r_order_id v = order_id r) (reviews raw))
              ≫= r_review_score) as Hscore.
  { intros r (i & o & p & c & v & -> & Hin)%elem_of_process_table.
    apply elem_of_merged in Hin as (_ & _ & _ & _ & ->). reflexivity. }
  split; [exact Hm|]. split; [by rewrite Hm, length_fmap|].
  split; [|split; [exact Hscore|]].
  - unfold process_table, merged. fold df. by rewrite Hm, !length_fmap.
  - intros r1 r2 H1 H2 E. rewrite (Hscore r1 H1), (Hscore r2 H2), E. done.
Qed.

Lemma review_merge_one_per_order_sample :
  length (process_table sample_raw) = 3%nat
  ∧ review_score <$> process_table sample_raw = [Some 5; Some 5; None].
Proof. by vm_compute. Qed.

(** Truncation and floor of a day count agree from zero upwards. *)
Lemma td_days_quot (delta : Z) :
  0 ≤ delta → td_days delta = delta `quot` ns_per_day.
Proof.
  intros H. unfold td_days. symmetry. apply Z.quot_div_nonneg; [done|].
  by vm_compute.
Qed.

Lemma td_days_floor (delta : Z) :
  td_days delta * ns_per_day ≤ delta < (td_days delta + 1) * ns_per_day.
Proof.
  unfold td_days.
  assert (0 < ns_per_day) as Hpos by (by vm_compute).
  pose proof (Z.mul_div_le delta ns_per_day Hpos).
  pose proof (Z.mul_succ_div_gt delta ns_per_day Hpos).
  lia.
Qed.

(** The calendar month of a timestamp is one of 1 .. 12. *)
Lemma dt_month_range (t : Timestamp) : 1 ≤ dt_month t ≤ 12.
Proof.
  unfold dt_month, civil_from_days. cbn [fst snd].
  set (z := t / ns_per_day + 719468).
  set (doe := z - z / 146097 * 146097).
  assert (0 ≤ doe < 146097) as Hdoe.
  { unfold doe. pose proof (Z.mod_pos_bound z 146097 ltac:(lia)).
    rewrite Z.mod_eq in H by lia. lia. }
  set (yoe := (doe - doe / 1460 + doe / 36524 - doe / 146096) / 365).
  set (doy := doe - (365 * yoe + yoe / 4 - yoe / 100)).
  assert (0 ≤ doy ≤ 365) as Hdoy.
  { unfold doy, yoe.
    pose proof (Z.div_mod doe 1460 ltac:(lia)).
    pose proof (Z.mod_pos_bound doe 1460 ltac:(lia)).
    pose proof (Z.div_mod doe 36524 ltac:(lia)).
    pose proof (Z.mod_pos_bound doe 36524 ltac:(lia)).
    pose proof (Z.div_mod doe 146096 ltac:(lia)).
    pose proof (Z.mod_pos_bound doe 146096 ltac:(lia)).
    set (n := doe - doe / 1460 + doe / 36524 - doe / 146096) in *.
    pose proof (Z.div_mod n 365 ltac:(lia)).
    pose proof (Z.mod_pos_bound n 365 ltac:(lia)).
    pose proof (Z.div_mod (n / 365) 4 ltac:(lia)).
    pose proof (Z.mod_pos_bound (n / 365) 4 ltac:(lia)).
    pose proof (Z.div_mod (n / 365) 100 ltac:(lia)).
    pose proof (Z.mod_pos_bound (n / 365) 100 ltac:(lia)).
    lia. }
  set (mp := (5 * doy + 2) / 153).
  assert (0 ≤ mp ≤ 11) as Hmp.
  { unfold mp. split.
    - apply Z.div_pos; lia.
    - apply Z.lt_succ_r, Z.div_lt_upper_bound; lia. }
  destruct (mp <? 10) eqn:E.
  - apply Z.ltb_lt in E. lia.
  - apply Z.ltb_ge in E. lia.
Qed.

(** C6, amended: in every row of the flat table, purchase year and month
    are the calendar year and month of the purchase timestamp, and the
    delivery duration is the day component of delivery minus purchase,
    that is the difference rounded down to whole days (the largest [n]
    with [n] days not exceeding it); this is the truncated difference
    whenever delivery is not earlier than purchase.  A missing timestamp
    makes the values derived from it missing. *)
Theorem derived_time_columns (raw : raw_tables) (r : sale) :
  r ∈ process_table raw →
  purchase_year r = dt_year <$> order_purchase_timestamp r
  ∧ purchase_month r = dt_month <$> order_purchase_timestamp r
  ∧ delivery_days r
    = (d ← order_delivered_customer_date r;
       p ← order_purchase_timestamp r;
       Some ((d - p) `div` ns_per_day))
  ∧ (∀ p d, order_purchase_timestamp r = Some p →
       order_delivered_customer_date r = Some d →
       ∃ n, delivery_days r = Some n
            ∧ n * ns_per_day ≤ d - p < (n + 1) * ns_per_day
            ∧ (p ≤ d → n = (d - p) `quot` ns_per_day))
  ∧ (order_purchase_timestamp r = None →
       purchase_year r = None ∧ purchase_month r = None
       ∧ delivery_days r = None)
  ∧ (order_delivered_customer_date r = None → delivery_days r = None).
Proof.
  intros (i & o & p & c & v & -> & _)%elem_of_process_table.
  cbn [flat_row purchase_year purchase_month delivery_days
       order_purchase_timestamp order_delivered_customer_date].
  split; [done|]. split; [done|]. split; [done|].
  split; [|split].
  - intros t d -> ->. exists (td_days (d - t)). cbn.
    split; [done|]. split; [apply td_days_floor|].
    intros Hle. apply td_days_quot. lia.
  - destruct o as [o|]; simpl; [|done].
    intros ->. by destruct (o_order_delivered_customer_date o).
  - destruct o as [o|]; simpl; [|done]. by intros ->.
Qed.

Lemma derived_time_columns_witness :
  sample_row ∈ process_table sample_raw
  ∧ purchase_year sample_row = Some 2023
  ∧ purchase_month sample_row = Some 3
  ∧ delivery_days sample_row = Some 3.
Proof.
  assert (sample_row ∈ process_table sample_raw) as Hin
    by (vm_compute; left).
  destruct (derived_time_columns sample_raw sample_row Hin)
    as (Hy & Hm & Hd & _).
  split; [exact Hin|]. rewrite Hy, Hm, Hd. by vm_compute.
Defined.

(** C6 as stated fails: an order delivered twelve hours before its
    purchase gets -1 day, while the truncated difference is 0 days. *)
Lemma delivery_days_not_truncated :
  early_row ∈ process_table early_delivery_raw
  ∧ order_purchase_timestamp early_row = Some 86400000000000
  ∧ order_delivered_customer_date early_row = Some 43200000000000
  ∧ delivery_days early_row = Some (-1)
  ∧ (43200000000000 - 86400000000000) `quot` ns_per_day = 0
  ∧ delivery_days early_row
    ≠ Some ((43200000000000 - 86400000000000) `quot` ns_per_day).
Proof.
  split; [vm_compute; left|]. by vm_compute.
Qed.

(* ================================================================== *)
(** * data_loader.py: the loader and its frames *)
(* ================================================================== *)

Global Instance extends_preorder : PreOrder extends.
Proof.
  split.
  - intros st. by repeat split.
  - intros st1 st2 st3 (Hs1 & Hf1 & Hh1) (Hs2 & Hf2 & Hh2).
    repeat split; [congruence..|]. by etrans.
Qed.

Lemma extends_lookup (st st' : state) (l : loc) (df : DataFrame) :
  extends st st' → heap st !! l = Some df → heap st' !! l = Some df.
Proof. intros (_ & _ & Hsub) Hl. by eapply lookup_weaken. Qed.

Lemma run_bind {X Y} (m : M X) (k : X → M Y) (st : state) :
  run (m ≫= k) st
  = match run m st with
    | (Ok x, st') => run (k x) st'
    | (Raise e, st') => (Raise e, st')
    end.
Proof. reflexivity. Qed.

(** Allocation returns a location that was unused and leaves every
    existing frame in place. *)
Lemma alloc_run (df : DataFrame) (st : state) :
  ∃ l st', run (alloc df) st = (Ok l, st')
           ∧ heap st !! l = None
           ∧ heap st' !! l = Some df
           ∧ extends st st'.
Proof.
  eexists _, _. split; [reflexivity|]. simpl.
  assert (heap st !! fresh (dom (heap st)) = None) as Hfresh
    by apply not_elem_of_dom, is_fresh.
  split; [done|]. split; [apply lookup_insert_eq|].
  repeat split. simpl. by apply insert_subseteq.
Qed.

(** A computation that reads the frame at [l] and allocates a frame
    computed from it. *)
Lemma derive_run (f : DataFrame → DataFrame) (l : loc) (df : DataFrame)
    (st : state) :
  heap st !! l = Some df →
  ∃ l' st', run (deref l ≫= λ d, alloc (f d)) st = (Ok l', st')
            ∧ heap st !! l' = None
            ∧ heap st' !! l' = Some (f df)
            ∧ extends st st'.
Proof.
  intros Hl. rewrite run_bind. simpl. rewrite Hl. apply alloc_run.
Qed.

Lemma filter_all {X} (P : X → Prop) `{!∀ x, Decision (P x)} (l : list X) :
  (∀ x, P x) → filter P l = l.
Proof.
  intros HP. induction l as [|x l IH]; [done|].
  rewrite filter_cons_True by done. by rewrite IH.
Qed.

Lemma df_rows_filter (P : sale → Prop) `{!∀ r, Decision (P r)}
    (df : DataFrame) :
  df_rows (filter (λ ir : nat * sale, P ir.2) df) = filter P (df_rows df).
Proof.
  unfold df_rows. induction df as [|[i r] df IH]; [done|].
  rewrite fmap_cons. cbn [snd]. destruct (decide (P r)) as [HP|HP].
  - rewrite (filter_cons_True (λ ir : nat * sale, P ir.2)) by done.
    rewrite fmap_cons, (filter_cons_True P) by done. f_equal. exact IH.
  - rewrite (filter_cons_False (λ ir : nat * sale, P ir.2)) by done.
    rewrite (filter_cons_False P) by done. exact IH.
Qed.

Lemma df_rows_range_indexed (rows : list sale) :
  df_rows (range_indexed rows) = rows.
Proof.
  unfold df_rows, range_indexed. apply snd_zip. by rewrite length_seq.
Qed.

Lemma index_range_indexed (rows : list sale) :
  (range_indexed rows).*1 = seq 0 (length rows).
Proof.
  unfold range_indexed. apply fst_zip. by rewrite length_seq.
Qed.

(** An optional selection keeps the rows that meet the filter. *)
Lemma optional_select {V} `{EqDecision V} (col : sale → option V)
    (f : option V) (rows : list sale) :
  match f with
  | Some v => select_eq col v rows
  | None => rows
  end = filter (λ r, meets f (col r)) rows.
Proof.
  destruct f as [v|]; [reflexivity|]. symmetry. by apply filter_all.
Qed.

(** The three successive selections amount to one selection by the
    conjunction of the conditions. *)
Lemma filter_sales_keeps (y m : option Z) (s : option string)
    (rows : list sale) :
  filter_sales y m s rows = filter (keeps y m s) rows.
Proof.
  unfold filter_sales. rewrite !optional_select, !list_filter_filter.
  apply list_filter_iff. intros r. unfold keeps. tauto.
Qed.

(** An optional [df[mask]] step of [create_sales_dataset]. *)
Lemma optional_df_select_run {V} `{EqDecision V} (col : sale → option V)
    (f : option V) (l : loc) (df : DataFrame) (st : state) :
  heap st !! l = Some df →
  ∃ l' st' df',
    run (match f with
         | Some v => df_select col v l
         | None => mret l
         end) st = (Ok l', st')
    ∧ heap st' !! l' = Some df'
    ∧ df_rows df' = match f with
                    | Some v => select_eq col v (df_rows df)
                    | None => df_rows df
                    end
    ∧ extends st st'.
Proof.
  intros Hl. destruct f as [v|].
  - destruct (derive_run (filter (λ ir : nat * sale, col ir.2 = Some v))
                l df st Hl) as (l' & st' & Hrun & _ & Hl' & Hext).
    exists l', st', (filter (λ ir : nat * sale, col ir.2 = Some v) df).
    split; [exact Hrun|]. split; [done|]. split; [|done].
    exact (df_rows_filter (λ r, col r = Some v) df).
  - exists l, st, df. split; [reflexivity|]. done.
Qed.

(** The part of [create_sales_dataset] that follows the lookup of the
    processed frame: copy, select, renumber. *)
Lemma copy_select_reset_run (p : loc) (df : DataFrame)
    (y m : option Z) (s : option string) (st : state) :
  heap st !! p = Some df →
  ∃ r st',
    run (df_copy p ≫= λ df,
         match s with
         | Some v => df_select order_status v df
         | None => mret df
         end ≫= λ df,
         match y with
         | Some v => df_select purchase_year v df
         | None => mret df
         end ≫= λ df,
         match m with
         | Some v => df_select purchase_month v df
         | None => mret df
         end ≫= λ df, df_reset_index df) st = (Ok r, st')
    ∧ heap st !! r = None
    ∧ heap st' !! r
      = Some (range_indexed (filter_sales y m s (df_rows df)))
    ∧ extends st st'.
Proof.
  intros Hp.
  destruct (derive_run id p df st Hp) as (l0 & st0 & R0 & _ & H0 & E0).
  destruct (optional_df_select_run order_status s l0 df st0 H0)
    as (l1 & st1 & df1 & R1 & H1 & D1 & E1).
  destruct (optional_df_select_run purchase_year y l1 df1 st1 H1)
    as (l2 & st2 & df2 & R2 & H2 & D2 & E2).
  destruct (optional_df_select_run purchase_month m l2 df2 st2 H2)
    as (l3 & st3 & df3 & R3 & H3 & D3 & E3).
  destruct (derive_run (λ d, range_indexed (df_rows d)) l3 df3 st3 H3)
    as (r & st' & R4 & Hfresh & Hr & E4).
  exists r, st'.
  assert (extends st st3) as E03 by (by etrans; [|etrans; [|etrans]]).
  split; [|split; [|split]].
  - change (run (df_copy p) st = (Ok l0, st0)) in R0.
    rewrite run_bind, R0, run_bind, R1, run_bind, R2, run_bind, R3.
    exact R4.
  - destruct (heap st !! r) as [d|] eqn:Hd; [|done].
    apply (extends_lookup st st3) in Hd; [|done]. congruence.
  - rewrite Hr. do 2 f_equal. unfold filter_sales.
    by rewrite D3, D2, D1.
  - by etrans.
Qed.

(** [create_sales_dataset] on a loader whose processed table is built:
    the call succeeds, returns a frame that did not exist before, holding
    the selected rows under a new index, and changes nothing else. *)
Lemma create_sales_dataset_run (st : state) (p : loc) (df : DataFrame)
    (y m : option Z) (s : option string) :
  processed (self st) = Some p →
  heap st !! p = Some df →
  ∃ r st',
    run (create_sales_dataset y m s) st = (Ok r, st')
    ∧ heap st !! r = None
    ∧ heap st' !! r
      = Some (range_indexed (filter_sales y m s (df_rows df)))
    ∧ extends st st'.
Proof.
  intros Hproc Hp.
  destruct (copy_select_reset_run p df y m s st Hp)
    as (r & st' & Hrun & Hrest).
  exists r, st'. split; [|exact Hrest].
  unfold create_sales_dataset. rewrite run_bind.
  change (run get_self st) with (Ok (self st), st). cbv beta iota.
  rewrite Hproc, run_bind.
  change (run (mret p) st) with (Ok p, st). cbv beta iota.
  exact Hrun.
Qed.

(** [process_data] when the tables are at hand (already loaded, or
    readable from [data_path]): the flat table is stored in a new frame,
    and the reference returned is the one kept in [self.processed]. *)
Lemma process_data_run (st : state) (t : raw_tables) :
  raw (self st) = Some t
  ∨ (raw (self st) = None ∧ files st !! data_path (self st) = Some t) →
  ∃ p st',
    run process_data st = (Ok p, st')
    ∧ heap st !! p = None
    ∧ heap st' = <[p := range_indexed (process_table t)]> (heap st)
    ∧ self st' = {| data_path := data_path (self st); raw := Some t;
                    processed := Some p |}
    ∧ files st' = files st.
Proof.
  intros Havail.
  assert (heap st !! fresh (dom (heap st)) = None) as Hfresh
    by apply not_elem_of_dom, is_fresh.
  exists (fresh (dom (heap st))). eexists. split; [|split; [exact Hfresh|]].
  - unfold process_data. rewrite run_bind.
    change (run get_self st) with (Ok (self st), st). cbv beta iota.
    rewrite run_bind. destruct Havail as [Hraw|[Hraw Hfile]]; rewrite Hraw.
    + change (run (mret t) st) with (Ok t, st). cbv beta iota.
      cbn. rewrite Hraw. reflexivity.
    + cbn. rewrite Hfile. cbn. reflexivity.
  - destruct Havail as [Hraw|[Hraw Hfile]]; done.
Qed.

(** C2: on a loader with a built processed table, [create_sales_dataset]
    returns, for every combination of filters, a frame whose rows are
    exactly the rows of the processed table that meet every filter that
    is not [None], in their original order, under a fresh index. *)
Theorem create_sales_dataset_selects (st : state) (p : loc) (df : DataFrame)
    (y m : option Z) (s : option string) :
  processed (self st) = Some p →
  heap st !! p = Some df →
  ∃ r st' out,
    run (create_sales_dataset y m s) st = (Ok r, st')
    ∧ heap st' !! r = Some out
    ∧ df_rows out = filter (keeps y m s) (df_rows df)
    ∧ df_rows out `sublist_of` df_rows df
    ∧ (∀ x, x ∈ df_rows out ↔
            x ∈ df_rows df
            ∧ (∀ v, s = Some v → order_status x = Some v)
            ∧ (∀ v, y = Some v → purchase_year x = Some v)
            ∧ (∀ v, m = Some v → purchase_month x = Some v))
    ∧ out.*1 = seq 0 (length (df_rows out)).
Proof.
  intros Hproc Hp.
  destruct (create_sales_dataset_run st p df y m s Hproc Hp)
    as (r & st' & Hrun & _ & Hr & _).
  exists r, st', (range_indexed (filter_sales y m s (df_rows df))).
  split; [exact Hrun|]. split; [exact Hr|].
  rewrite df_rows_range_indexed, index_range_indexed, filter_sales_keeps.
  split; [done|]. split; [apply sublist_filter|]. split; [|done].
  intros x. rewrite list_elem_of_filter. unfold keeps, meets.
  destruct s, y, m;
    (split;
     [ intros [(? & ? & ?) ?]; repeat split; try done; intros ? [= <-]; done
     | intros (? & Hs & Hy & Hm); repeat split; auto ]).
Qed.

Lemma create_sales_dataset_selects_witness :
  ∃ r st' out,
    run (create_sales_dataset (Some 2023) None (Some "delivered"%string))
      sample_state = (Ok r, st')
    ∧ heap st' !! r = Some out
    ∧ order_id <$> df_rows out = [Some "o1"; Some "o1"]%string.
Proof.
  destruct (create_sales_dataset_selects sample_state 1%positive
              (range_indexed (process_table sample_raw))
              (Some 2023) None (Some "delivered"%string)
              eq_refl eq_refl)
    as (r & st' & out & Hrun & Hr & Hrows & _).
  exists r, st', out. split; [exact Hrun|]. split; [exact Hr|].
  rewrite Hrows. by vm_compute.
Defined.

(** C8: on a loader with a built processed table, a call of
    [create_sales_dataset] with any filters leaves the loader object and
    the processed frame as they were; the frame it returns is another
    object, so storing into it later cannot reach the processed table. *)
Theorem create_sales_dataset_preserves_processed (st : state) (p : loc)
    (df : DataFrame) (y m : option Z) (s : option string) :
  processed (self st) = Some p →
  heap st !! p = Some df →
  ∃ r st',
    run (create_sales_dataset y m s) st = (Ok r, st')
    ∧ self st' = self st
    ∧ processed (self st') = Some p
    ∧ heap st' !! p = Some df
    ∧ r ≠ p
    ∧ (∀ l d, heap st !! l = Some d → heap st' !! l = Some d)
    ∧ (∀ d, <[r := d]> (heap st') !! p = Some df).
Proof.
  intros Hproc Hp.
  destruct (create_sales_dataset_run st p df y m s Hproc Hp)
    as (r & st' & Hrun & Hfresh & _ & Hext).
  assert (r ≠ p) as Hne by congruence.
  assert (heap st' !! p = Some df) as Hp' by by eapply extends_lookup.
  exists r, st'. split; [exact Hrun|].
  destruct Hext as (Hself & _ & Hsub).
  split; [done|]. split; [congruence|]. split; [done|]. split; [done|].
  split.
  - intros l d Hl. by eapply lookup_weaken.
  - intros d. by rewrite lookup_insert_ne.
Qed.

Lemma create_sales_dataset_preserves_processed_witness :
  ∃ r st',
    run (create_sales_dataset None (Some 3) None) sample_state = (Ok r, st')
    ∧ processed (self st') = Some 1%positive
    ∧ heap st' !! 1%positive
      = Some (range_indexed (process_table sample_raw))
    ∧ r ≠ 1%positive.
Proof.
  destruct (create_sales_dataset_preserves_processed sample_state 1%positive
              (range_indexed (process_table sample_raw))
              None (Some 3) None eq_refl eq_refl)
    as (r & st' & Hrun & _ & Hproc & Hp & Hne & _).
  by exists r, st'.
Defined.

(** C10: a call that does not pass [status_filter] selects the rows whose
    status is 'delivered', whatever is passed for year and month, whereas
    omitting [year_filter] and [month_filter] constrains nothing; every
    status is kept only when [status_filter=None] is passed. *)
Theorem status_filter_defaults_to_delivered (st : state) (p : loc)
    (df : DataFrame) :
  processed (self st) = Some p →
  heap st !! p = Some df →
  (∀ ay am,
     call_create_sales_dataset
       {| arg_year_filter := ay; arg_month_filter := am;
          arg_status_filter := None |}
     = create_sales_dataset (default None ay) (default None am)
         (Some "delivered"%string))
  ∧ (∃ r st' out,
       run (call_create_sales_dataset
              {| arg_year_filter := None; arg_month_filter := None;
                 arg_status_filter := None |}) st = (Ok r, st')
       ∧ heap st' !! r = Some out
       ∧ df_rows out
         = filter (λ x, order_status x = Some "delivered"%string)
             (df_rows df))
  ∧ (∃ r st' out,
       run (call_create_sales_dataset
              {| arg_year_filter := None; arg_month_filter := None;
                 arg_status_filter := Some None |}) st = (Ok r, st')
       ∧ heap st' !! r = Some out
       ∧ df_rows out = df_rows df).
Proof.
  intros Hproc Hp. split; [reflexivity|]. split.
  - destruct (create_sales_dataset_run st p df None None
                (Some "delivered"%string) Hproc Hp)
      as (r & st' & Hrun & _ & Hr & _).
    eexists r, st', _. split; [exact Hrun|]. split; [exact Hr|].
    by rewrite df_rows_range_indexed.
  - destruct (create_sales_dataset_run st p df None None None Hproc Hp)
      as (r & st' & Hrun & _ & Hr & _).
    eexists r, st', _. split; [exact Hrun|]. split; [exact Hr|].
    by rewrite df_rows_range_indexed.
Qed.

Lemma status_filter_defaults_to_delivered_witness :
  (∃ r st' out,
     run (call_create_sales_dataset
            {| arg_year_filter := None; arg_month_filter := None;
               arg_status_filter := None |}) sample_state = (Ok r, st')
     ∧ heap st' !! r = Some out
     ∧ order_id <$> df_rows out = [Some "o1"; Some "o1"]%string)
  ∧ (∃ r st' out,
       run (call_create_sales_dataset
              {| arg_year_filter := None; arg_month_filter := None;
                 arg_status_filter := Some None |}) sample_state
       = (Ok r, st')
       ∧ heap st' !! r = Some out
       ∧ order_id <$> df_rows out
         = [Some "o1"; Some "o1"; Some "o9"]%string).
Proof.
  destruct (status_filter_defaults_to_delivered sample_state 1%positive
              (range_indexed (process_table sample_raw)) eq_refl eq_refl)
    as (_ & (r1 & st1 & out1 & Hrun1 & Hr1 & Hrows1)
          & (r2 & st2 & out2 & Hrun2 & Hr2 & Hrows2)).
  split.
  - exists r1, st1, out1. split; [exact Hrun1|]. split; [exact Hr1|].
    rewrite Hrows1. by vm_compute.
  - exists r2, st2, out2. split; [exact Hrun2|]. split; [exact Hr2|].
    rewrite Hrows2. by vm_compute.
Defined.

(** A first call on a loader that has not built its table builds it,
    keeps it in [self.processed] and returns the selection as a frame of
    its own. *)
Lemma create_sales_dataset_builds (st : state) (t : raw_tables)
    (y m : option Z) (s : option string) :
  processed (self st) = None →
  raw (self st) = Some t
  ∨ (raw (self st) = None ∧ files st !! data_path (self st) = Some t) →
  ∃ r p st',
    run (create_sales_dataset y m s) st = (Ok r, st')
    ∧ processed (self st') = Some p
    ∧ heap st' !! p = Some (range_indexed (process_table t))
    ∧ heap st' !! r
      = Some (range_indexed (filter_sales y m s (process_table t)))
    ∧ r ≠ p.
Proof.
  intros Hproc Havail.
  destruct (process_data_run st t Havail)
    as (p & st1 & Hrun1 & _ & Hheap1 & Hself1 & _).
  assert (heap st1 !! p = Some (range_indexed (process_table t))) as Hp
    by (rewrite Hheap1; apply lookup_insert_eq).
  destruct (copy_select_reset_run p _ y m s st1 Hp)
    as (r & st' & Hrun2 & Hfresh & Hr & Hext).
  exists r, p, st'. split; [|split; [|split; [|split]]].
  - unfold create_sales_dataset. rewrite run_bind.
    change (run get_self st) with (Ok (self st), st). cbv beta iota.
    rewrite Hproc, run_bind, Hrun1. exact Hrun2.
  - destruct Hext as (-> & _ & _). by rewrite Hself1.
  - by eapply extends_lookup.
  - by rewrite Hr, df_rows_range_indexed.
  - congruence.
Qed.

(* ================================================================== *)
(** * business_metrics.py: revenue metrics *)
(* ================================================================== *)

(** C9: when the comparison dataset has a zero price total, as an empty
    one has, [calculate_revenue_metrics] raises instead of returning a
    dict: [pct_change] gives [None] for the zero denominator and
    [round(None, 2)] is a type error. *)
Theorem revenue_metrics_raise_on_zero_comparison
    (current_sales comparison_sales : list sale)
    (current_year comparison_year : Z) :
  (total_revenue comparison_sales == 0)%Q →
  pct_change (Fin (total_revenue current_sales))
             (Fin (total_revenue comparison_sales)) = PyNone
  ∧ calculate_revenue_metrics current_sales comparison_sales
      current_year comparison_year = Raise TypeError.
Proof.
  intros Hzero.
  assert (pct_change (Fin (total_revenue current_sales))
                     (Fin (total_revenue comparison_sales)) = PyNone) as Hpc.
  { unfold pct_change, truthy. by rewrite Qeq_bool_true. }
  split; [exact Hpc|].
  unfold calculate_revenue_metrics. cbv zeta. rewrite Hpc. reflexivity.
Qed.

Lemma revenue_metrics_raise_on_zero_comparison_witness :
  calculate_revenue_metrics sample_sales [] 2023 2022 = Raise TypeError.
Proof.
  apply (revenue_metrics_raise_on_zero_comparison sample_sales [] 2023 2022).
  reflexivity.
Defined.

Lemma omap_id_Some {X} (v : list X) : omap id (Some <$> v) = v.
Proof. induction v as [|x v IH]; [done|]. cbn. by rewrite IH. Qed.

Lemma mean_skipna_Some (v : list Q) :
  mean_skipna (Some <$> v)
  = match v with
    | [] => NaN
    | _ => Fin (Qsum v / Q_of_nat (length v))
    end.
Proof. unfold mean_skipna. rewrite omap_id_Some. by destruct v. Qed.

Lemma order_totals_values (sales : list sale) :
  (order_totals sales).*2
  = (λ k, sum_skipna (price <$> filter (λ r, order_id r = Some k) sales))
    <$> group_keys string_le order_id sales.
Proof.
  unfold order_totals, groupby.
  induction (group_keys string_le order_id sales) as [|k ks IH]; [done|].
  rewrite !fmap_cons. by rewrite IH.
Qed.

(** A mean written as sum over length is the quotient of the total by
    the count, also for the empty list, where both are NaN. *)
Lemma mean_as_quotient (v : list Q) (total : Q) (n : nat) :
  (Qsum v == total)%Q →
  length v = n →
  num_eq match v with
         | [] => NaN
         | _ => Fin (Qsum v / Q_of_nat (length v))
         end
         (ndiv (Fin total) (Fin (Q_of_nat n))).
Proof.
  intros Hs <-. unfold ndiv. destruct v as [|x v].
  - rewrite Qeq_bool_true by reflexivity.
    assert ((total ?= 0)%Q = Eq) as -> by (apply Qeq_alt; by rewrite <- Hs).
    exact I.
  - rewrite Qeq_bool_false by (by rewrite Q_of_nat_zero).
    cbn [num_eq]. by rewrite Hs.
Qed.

(** The mean of the per-order totals is the total revenue divided by the
    number of distinct orders, provided every row has an order id. *)
Lemma mean_order_total_spec (sales : list sale) :
  (∀ r, r ∈ sales → is_Some (order_id r)) →
  num_eq (mean_order_total sales) (aov_spec sales).
Proof.
  intros Hids. unfold mean_order_total, aov_spec.
  rewrite mean_skipna_Some, order_totals_values.
  apply mean_as_quotient.
  - apply (sum_by_groups order_id price).
    + apply NoDup_group_keys.
    + intros r Hr. destruct (Hids r Hr) as [k Hk]. exists k.
      split; [done|]. apply elem_of_group_keys. by exists r.
  - rewrite length_fmap. apply length_group_keys.
Qed.

Lemma pretty_N_go_head_g (x : N) (s s' : string) :
  s ≠ String "g"%char s' → pretty_N_go x s ≠ String "g"%char s'.
Proof.
  revert s. induction (N.lt_wf_0 x) as [x _ IH]. intros s Hs.
  destruct (decide (x = 0%N)) as [->|Hx]; [by rewrite pretty_N_go_0|].
  rewrite pretty_N_go_step by lia. apply IH.
  - apply N.div_lt; lia.
  - unfold pretty_N_char. repeat case_match; discriminate.
Qed.

(** The decimal form of an integer does not begin with the letter g. *)
Lemma pretty_Z_head_g (z : Z) (s : string) :
  pretty z ≠ String "g"%char s.
Proof.
  destruct z as [|p|p]; [done| |done].
  unfold pretty, pretty_Z, pretty, pretty_positive, pretty, pretty_N.
  rewrite decide_False by done. by apply pretty_N_go_head_g.
Qed.

Lemma aov_key_not_growth (z : Z) :
  ("aov_growth_pct" ≠ "aov_" +:+ pretty z)%string.
Proof.
  intros [= H]. symmetry in H. by apply pretty_Z_head_g in H.
Qed.

Lemma aov_key_inj (a b : Z) :
  ("aov_" +:+ pretty a = "aov_" +:+ pretty b)%string → a = b.
Proof. intros [= H]. exact (pretty_Z_inj a b H). Qed.

(** The average-order-value entries of the dict returned by
    [calculate_revenue_metrics]. *)
Lemma revenue_metrics_aov_entries (cur comp : list sale) (cy py : Z)
    (d : gmap string pyval) :
  calculate_revenue_metrics cur comp cy py = Ok d →
  d !! ("aov_" +:+ pretty py)%string
  = Some (PyFloat (nround 2 (mean_order_total comp)))
  ∧ (cy ≠ py →
     d !! ("aov_" +:+ pretty cy)%string
     = Some (PyFloat (nround 2 (mean_order_total cur)))).
Proof.
  unfold calculate_revenue_metrics. cbv zeta.
  destruct (pct_change (Fin (total_revenue cur)) (Fin (total_revenue comp)))
    as [|?|g1]; [discriminate| |]; cbn [py_round mbind res_mbind res_bind].
  all: destruct (pct_change (Fin (Q_of_nat (nunique order_id cur)))
                   (Fin (Q_of_nat (nunique order_id comp))))
    as [|?|g2]; [discriminate| |]; cbn [py_round mbind res_mbind res_bind].
  all: destruct (pct_change (mean_order_total cur) (mean_order_total comp))
    as [|?|g3]; [discriminate| |]; cbn [py_round mbind res_mbind res_bind].
  all: intros [= <-]; unfold dict_of_items; cbn [foldl fst snd].
  all: split;
    [ rewrite lookup_insert_ne by apply aov_key_not_growth;
      apply lookup_insert_eq
    | intros Hne;
      rewrite lookup_insert_ne by apply aov_key_not_growth;
      rewrite lookup_insert_ne by (intros E; apply aov_key_inj in E; done);
      apply lookup_insert_eq ].
Qed.

(** A row of the state table is the row computed from one state group. *)
Lemma elem_of_geographic_metrics (sales : list sale) (g : geo_row) :
  g ∈ calculate_geographic_metrics sales ↔
  ∃ k, k ∈ group_keys string_le customer_state sales
       ∧ g = geo_of_group
               (k, filter (λ r, customer_state r = Some k) sales).
Proof.
  unfold calculate_geographic_metrics.
  rewrite merge_sort_Permutation, list_elem_of_fmap. split.
  - intros ([k rows] & -> & Hin). apply elem_of_groupby in Hin as [Hk Hrows].
    simpl in *. subst rows. by exists k.
  - intros (k & Hk & ->). eexists. split; [reflexivity|].
    apply elem_of_groupby. done.
Qed.

(** C3, amended: for every sales dataset in which every row has an order
    id, the aov values returned by [calculate_revenue_metrics] (means of
    the per-order price sums) equal, after rounding to two places, the sum
    of price divided by the number of distinct order ids; and in every
    sales dataset each row of [calculate_geographic_metrics] has as aov
    the rounded quotient of the price sum and the number of distinct
    order ids of the rows of its state. *)
Theorem aov_is_revenue_per_order :
  (∀ cur comp cy py d,
     (∀ r, r ∈ cur → is_Some (order_id r)) →
     (∀ r, r ∈ comp → is_Some (order_id r)) →
     calculate_revenue_metrics cur comp cy py = Ok d →
     d !! ("aov_" +:+ pretty py)%string
     = Some (PyFloat (nround 2 (aov_spec comp)))
     ∧ (cy ≠ py →
        d !! ("aov_" +:+ pretty cy)%string
        = Some (PyFloat (nround 2 (aov_spec cur)))))
  ∧ (∀ sales,
       (∀ r, r ∈ sales → is_Some (order_id r)) →
       nround 2 (mean_order_total sales) = nround 2 (aov_spec sales))
  ∧ (∀ sales g,
       g ∈ calculate_geographic_metrics sales →
       let rows := filter (λ r, customer_state r = Some (g_customer_state g))
                     sales in
       g_revenue g = total_revenue rows
       ∧ g_order_count g = nunique order_id rows
       ∧ g_aov g = nround 2 (aov_spec rows)).
Proof.
  split; [|split].
  - intros cur comp cy py d Hcur Hcomp Hd.
    apply revenue_metrics_aov_entries in Hd as [Hpy Hcy].
    rewrite <- (nround_proper 2 _ _ (mean_order_total_spec comp Hcomp)).
    rewrite <- (nround_proper 2 _ _ (mean_order_total_spec cur Hcur)).
    done.
  - intros sales Hids. apply nround_proper. by apply mean_order_total_spec.
  - intros sales g (k & _ & ->)%elem_of_geographic_metrics. done.
Qed.

Lemma sample_sales_order_ids (r : sale) :
  r ∈ sample_sales → is_Some (order_id r).
Proof.
  unfold sample_sales. rewrite !elem_of_cons, elem_of_nil.
  intros [->|[->|[->|[]]]]; by eexists.
Qed.

Lemma aov_is_revenue_per_order_witness :
  ∃ d, calculate_revenue_metrics sample_sales sample_sales 2023 2022 = Ok d
       ∧ d !! "aov_2022"%string
         = Some (PyFloat (nround 2 (aov_spec sample_sales)))
       ∧ d !! "aov_2023"%string
         = Some (PyFloat (nround 2 (aov_spec sample_sales)))
       ∧ num_eq (nround 2 (aov_spec sample_sales)) (Fin (37 # 4)).
Proof.
  destruct (calculate_revenue_metrics sample_sales sample_sales 2023 2022)
    as [d|e] eqn:E; [|by vm_compute in E].
  exists d. split; [reflexivity|].
  destruct aov_is_revenue_per_order as (Hdict & _ & _).
  destruct (Hdict sample_sales sample_sales 2023 2022 d
              sample_sales_order_ids sample_sales_order_ids E)
    as [Hpy Hcy].
  split; [exact Hpy|]. split; [by apply Hcy|]. by vm_compute.
Defined.

(** C3 as stated fails on a dataset with a row whose order id is missing:
    the grouping by order drops that row, so the aov returned is 10,
    while revenue over distinct orders is 15. *)
Lemma aov_differs_with_missing_order_id :
  ∃ d, calculate_revenue_metrics
         sales_missing_order_id sales_missing_order_id 2023 2022 = Ok d
       ∧ d !! "aov_2023"%string = Some (PyFloat (nround 2 (Fin 10)))
       ∧ nround 2 (aov_spec sales_missing_order_id) = nround 2 (Fin 15)
       ∧ d !! "aov_2023"%string
         ≠ Some (PyFloat (nround 2 (aov_spec sales_missing_order_id))).
Proof.
  eexists. split; [by vm_compute|].
  split; [by vm_compute|]. split; [by vm_compute|].
  vm_compute. intros [=].
Qed.

(* ================================================================== *)
(** * business_metrics.py: monthly revenue *)
(* ================================================================== *)

Global Instance month_le_trans : Transitive month_le.
Proof. intros a b c. unfold month_le. lia. Qed.

Global Instance month_le_total : Total month_le.
Proof. intros a b. unfold month_le. lia. Qed.

Lemma group_month_keys (sales : list sale) :
  ((λ g : Z * list sale, (g.1, sum_skipna (price <$> g.2)))
     <$> groupby Z.le purchase_month sales).*1
  = group_keys Z.le purchase_month sales.
Proof.
  rewrite <- (groupby_keys Z.le purchase_month sales).
  rewrite <- !list_fmap_compose. by apply list_fmap_ext.
Qed.

(** An ascending list without repetitions is strictly ascending. *)
Lemma StronglySorted_le_lt (l : list Z) :
  StronglySorted Z.le l → NoDup l → StronglySorted Z.lt l.
Proof.
  induction 1 as [|x l Hs IH Hx]; intros Hnd; [constructor|].
  apply NoDup_cons in Hnd as [Hnotin Hnd]. constructor; [by apply IH|].
  rewrite Forall_forall in Hx |- *. intros y Hy.
  assert (x ≠ y) by (intros ->; done). specialize (Hx y Hy). lia.
Qed.

(** The months of the monthly table: strictly ascending. *)
Lemma monthly_totals_sorted (sales : list sale) :
  StronglySorted Z.lt (monthly_totals sales).*1.
Proof.
  apply StronglySorted_le_lt.
  - apply (StronglySorted_fmap fst month_le Z.le); [by intros a b|].
    apply StronglySorted_merge_sort; apply _.
  - unfold monthly_totals. rewrite merge_sort_Permutation, group_month_keys.
    apply NoDup_group_keys.
Qed.

(** A row of the monthly table is a month that occurs in the input,
    with the price total of that month's rows. *)
Lemma elem_of_monthly_totals (sales : list sale) (mr : Z * Q) :
  mr ∈ monthly_totals sales ↔
  (∃ r, r ∈ sales ∧ purchase_month r = Some mr.1)
  ∧ mr.2 = sum_skipna
             (price <$> filter (λ r, purchase_month r = Some mr.1) sales).
Proof.
  unfold monthly_totals. rewrite merge_sort_Permutation, list_elem_of_fmap.
  split.
  - intros ([k rows] & -> & Hin).
    apply elem_of_groupby in Hin as [Hk Hrows]. simpl in *. subst rows.
    split; [|done]. by apply elem_of_group_keys in Hk.
  - intros [Hk Hsum]. destruct mr as [k total]. simpl in *. subst total.
    exists (k, filter (λ r, purchase_month r = Some k) sales).
    split; [done|]. apply elem_of_groupby. split; [|done].
    by apply elem_of_group_keys.
Qed.

Lemma length_pct_change_series (l : list num) :
  length (pct_change_series l) = length l.
Proof.
  unfold pct_change_series. apply length_zip_with_l. simpl. lia.
Qed.

(** Month and revenue columns of the result are the monthly table. *)
Lemma monthly_revenue_columns (sales : list sale) :
  (λ row, (m_purchase_month row, m_revenue row))
    <$> calculate_monthly_revenue sales
  = monthly_totals sales.
Proof.
  unfold calculate_monthly_revenue. cbv zeta. apply fmap_zip_with_l.
  - by intros [k total] g.
  - by rewrite length_pct_change_series, !length_fmap.
Qed.

Lemma monthly_revenue_lookup (sales : list sale) (i : nat)
    (row : monthly_row) :
  calculate_monthly_revenue sales !! i = Some row →
  monthly_totals sales !! i = Some (m_purchase_month row, m_revenue row).
Proof.
  intros Hrow. rewrite <- monthly_revenue_columns, list_lookup_fmap.
  by rewrite Hrow.
Qed.

(** The growth of a row from the monthly table: nothing to compare with
    in the first row, the previous revenue afterwards. *)
Lemma monthly_revenue_growth (sales : list sale) (i : nat)
    (row : monthly_row) :
  calculate_monthly_revenue sales !! i = Some row →
  match i with
  | O => m_mom_growth_pct row = NaN
  | S j =>
      ∃ prev, monthly_totals sales !! j = Some prev
              ∧ m_mom_growth_pct row
                = nmul (nsub (ndiv (Fin (m_revenue row)) (Fin prev.2))
                          (Fin 1))
                    (Fin 100)
  end.
Proof.
  intros Hrow. pose proof (monthly_revenue_lookup sales i row Hrow) as Hmt.
  unfold calculate_monthly_revenue in Hrow. cbv zeta in Hrow.
  apply lookup_zip_with_Some in Hrow as (mr & g & -> & Hmr & Hg).
  unfold pct_change_series in Hg.
  apply lookup_zip_with_Some in Hg as (x & prev & -> & Hx & Hprev).
  rewrite list_lookup_fmap, list_lookup_fmap, Hmr in Hx.
  injection Hx as <-. cbn [m_mom_growth_pct m_revenue].
  destruct i as [|j].
  - injection Hprev as <-. reflexivity.
  - change ((Fin <$> (monthly_totals sales).*2) !! j = Some prev) in Hprev.
    rewrite list_lookup_fmap, list_lookup_fmap in Hprev.
    destruct (monthly_totals sales !! j) as [pm|] eqn:Hpm; [|done].
    injection Hprev as <-. by exists pm.
Qed.

(** C4: [calculate_monthly_revenue] returns one row per month that occurs
    in the input, in strictly ascending month order; the revenue of a row
    is the price total of the rows of its month; the growth of the first
    row is NaN and the growth of every later row is the change from the
    previous row's revenue, relative to it, times 100. *)
Theorem monthly_revenue_and_growth (sales : list sale) :
  let out := calculate_monthly_revenue sales in
  StronglySorted Z.lt (m_purchase_month <$> out)
  ∧ (∀ mo, mo ∈ m_purchase_month <$> out ↔
           ∃ r, r ∈ sales ∧ purchase_month r = Some mo)
  ∧ (∀ row, row ∈ out →
       m_revenue row
       = sum_skipna
           (price <$> filter (λ r, purchase_month r = Some (m_purchase_month row))
                        sales))
  ∧ (∀ row, out !! 0%nat = Some row → m_mom_growth_pct row = NaN)
  ∧ (∀ i prev row, out !! i = Some prev → out !! S i = Some row →
       num_eq (m_mom_growth_pct row)
         (nmul (ndiv (nsub (Fin (m_revenue row)) (Fin (m_revenue prev)))
                     (Fin (m_revenue prev)))
               (Fin 100))).
Proof.
  intros out.
  assert (m_purchase_month <$> out = (monthly_totals sales).*1) as Hmonths.
  { rewrite <- monthly_revenue_columns. fold out.
    rewrite <- list_fmap_compose. by apply list_fmap_ext. }
  assert (∀ row, row ∈ out →
            (m_purchase_month row, m_revenue row) ∈ monthly_totals sales)
    as Hrows.
  { intros row Hrow. rewrite <- monthly_revenue_columns.
    apply list_elem_of_fmap. by exists row. }
  split; [|split; [|split; [|split]]].
  - rewrite Hmonths. apply monthly_totals_sorted.
  - intros mo. rewrite Hmonths, list_elem_of_fmap. split.
    + intros (mr & -> & Hin). by apply elem_of_monthly_totals in Hin as [? _].
    + intros Hmo.
      exists (mo, sum_skipna
                    (price <$> filter (λ r, purchase_month r = Some mo) sales)).
      split; [done|]. by apply elem_of_monthly_totals.
  - intros row Hrow. by apply Hrows, elem_of_monthly_totals in Hrow as [_ ?].
  - intros row Hrow. exact (monthly_revenue_growth sales 0 row Hrow).
  - intros i prev row Hprev Hrow.
    destruct (monthly_revenue_growth sales (S i) row Hrow)
      as (pm & Hpm & ->).
    rewrite (monthly_revenue_lookup sales i prev Hprev) in Hpm.
    injection Hpm as <-. cbn [snd].
    apply nmul_proper_l, relative_change.
Qed.

Lemma monthly_revenue_and_growth_sample :
  m_purchase_month <$> calculate_monthly_revenue sample_sales = [1; 2]
  ∧ Forall2 num_eq
      (m_mom_growth_pct <$> calculate_monthly_revenue sample_sales)
      [NaN; Fin 170].
Proof.
  split; [by vm_compute|]. vm_compute. repeat constructor.
Qed.

(* ================================================================== *)
(** * business_metrics.py: delivery metrics *)
(* ================================================================== *)

Lemma Qle_bool_inject_Z (a b : Z) :
  Qle_bool (inject_Z a) (inject_Z b) = bool_decide (a ≤ b).
Proof.
  unfold Qle_bool. simpl. rewrite !Z.mul_1_r.
  destruct (Z.leb_spec a b).
  - by rewrite bool_decide_eq_true_2.
  - rewrite bool_decide_eq_false_2; [done|lia].
Qed.

(** The bucket of a duration given in whole days. *)
Lemma bucket_delivery_days (d : Z) :
  _bucket_delivery (num_of_cell (Some d))
  = if bool_decide (d ≤ 3) then "1-3 days"%string
    else if bool_decide (d ≤ 7) then "4-7 days"%string
    else "8+ days"%string.
Proof.
  change (_bucket_delivery (num_of_cell (Some d)))
    with (if Qle_bool (inject_Z d) (inject_Z 3) then "1-3 days"%string
          else if Qle_bool (inject_Z d) (inject_Z 7) then "4-7 days"%string
          else "8+ days"%string).
  by rewrite !Qle_bool_inject_Z.
Qed.

(** Every duration falls in one bucket: a missing one in "unknown", and
    whole days of 1 to 3, 4 to 7, and 8 or more in the three speed
    buckets. *)
Lemma bucket_delivery_cases (d : Z) :
  _bucket_delivery (num_of_cell None) = "unknown"%string
  ∧ (1 ≤ d ≤ 3 → _bucket_delivery (num_of_cell (Some d)) = "1-3 days"%string)
  ∧ (4 ≤ d ≤ 7 → _bucket_delivery (num_of_cell (Some d)) = "4-7 days"%string)
  ∧ (8 ≤ d → _bucket_delivery (num_of_cell (Some d)) = "8+ days"%string).
Proof.
  split; [done|]. rewrite bucket_delivery_days.
  repeat split; intros Hd; repeat case_bool_decide; done || lia.
Qed.

Lemma elem_of_delivery_bucket_summary (sales : list sale) (row : bucket_row) :
  row ∈ delivery_bucket_summary sales ↔
  ∃ b, (∃ r, r ∈ order_level sales ∧ delivery_time r = b)
       ∧ row = bucket_of_group
                 (b, filter (λ r, Some (delivery_time r) = Some b)
                       (order_level sales)).
Proof.
  unfold delivery_bucket_summary, bucket_groups.
  rewrite merge_sort_Permutation, list_elem_of_fmap. split.
  - intros ([b rows] & -> & Hin). apply elem_of_groupby in Hin as [Hb Hrows].
    simpl in *. subst rows. exists b. split; [|done].
    apply elem_of_group_keys in Hb as (r & Hr & [= Hb]). by exists r.
  - intros (b & (r & Hr & Hb) & ->). eexists. split; [reflexivity|].
    apply elem_of_groupby. split; [|done]. simpl.
    apply elem_of_group_keys. exists r. by rewrite Hb.
Qed.

(** C5: on an order without delivery date the bucket function answers
    "unknown", but the summary row of that bucket carries a missing label:
    the categorical conversion keeps only the three speed buckets.  No
    row of the summary is labelled "unknown". *)
Theorem unknown_bucket_label_lost :
  delivery_time <$> order_level sales_undelivered = ["unknown"%string]
  ∧ b_delivery_time
      <$> bucket_summary (calculate_delivery_metrics sales_undelivered)
    = [None]
  ∧ b_order_count
      <$> bucket_summary (calculate_delivery_metrics sales_undelivered)
    = [1%nat]
  ∧ ¬ ∃ row,
        row ∈ bucket_summary (calculate_delivery_metrics sales_undelivered)
        ∧ b_delivery_time row = Some "unknown"%string.
Proof.
  split; [by vm_compute|]. split; [by vm_compute|]. split; [by vm_compute|].
  intros (row & Hrow & Hlabel).
  apply (list_elem_of_fmap_2 b_delivery_time) in Hrow.
  rewrite Hlabel in Hrow. vm_compute in Hrow.
  apply list_elem_of_singleton in Hrow. discriminate.
Qed.
